(** * Candidate screening pipeline: the scoring and recommendation engine

    A shallow embedding of the scoring core of [candidate_screener.py]
    (the skill matcher, the experience and education scorers, the soft-skill
    estimate, the weighted aggregate and the recommendation tiers), followed
    by the properties stated about it.

    Conventions of the embedding:
    - Python [int] is [Z]; Python numbers that may be [float] are exact
      rationals [Q] (every finite float is a rational; the rounding error of
      binary floating point is not modelled);
    - Python [str] is [string], read as ASCII text;
    - a Python exception is the [Raise] case of [result]. *)

From Stdlib Require Import ZArith QArith Qround Qabs Lqa Lia.
From Stdlib Require Import List String Ascii Bool DecimalString Permutation.
From Stdlib Require Import Floats.
Import ListNotations.

Local Open Scope string_scope.
Local Open Scope Z_scope.

(** ** Python builtins used by the scoring code *)

Module Py.

Inductive exception : Type :=
| IndexError
| ZeroDivisionError
| ValueError.

Inductive result (A : Type) : Type :=
| Ok (a : A)
| Raise (e : exception).

Arguments Ok {A} a.
Arguments Raise {A} e.

Definition bind {A B : Type} (m : result A) (k : A -> result B) : result B :=
  match m with
  | Ok a => k a
  | Raise e => Raise e
  end.

Declare Scope py_scope.
Delimit Scope py_scope with py.

Notation "x <- m ;; k" := (bind m (fun x => k))
  (at level 61, m at next level, right associativity) : py_scope.
Notation "' p <- m ;; k" := (bind m (fun x => let 'p := x in k))
  (at level 61, p pattern, m at next level, right associativity) : py_scope.

(** [sub in s] on strings. *)
Fixpoint str_in (sub s : string) : bool :=
  String.prefix sub s ||
  match s with
  | EmptyString => false
  | String _ s' => str_in sub s'
  end.

(** [c.lower()] on one ASCII character. *)
Definition lower_char (c : ascii) : ascii :=
  let n := N_of_ascii c in
  if ((65 <=? n) && (n <=? 90))%N then ascii_of_N (n + 32) else c.

(** [s.lower()]. *)
Fixpoint lower (s : string) : string :=
  match s with
  | EmptyString => EmptyString
  | String c s' => String (lower_char c) (lower s')
  end.

(** [str(n)] of an integer, as an f-string renders [{n}]. *)
Definition str_int (n : Z) : string :=
  NilZero.string_of_int (Z.to_int n).

(** [l[0]]. *)
Definition index0 {A : Type} (l : list A) : result A :=
  match l with
  | [] => Raise IndexError
  | x :: _ => Ok x
  end.

(** [x in l] on a list of strings. *)
Definition list_in (x : string) (l : list string) : bool :=
  existsb (String.eqb x) l.

(** [sep.join(l)]. *)
Fixpoint join (sep : string) (l : list string) : string :=
  match l with
  | [] => ""
  | [x] => x
  | x :: l' => x ++ sep ++ join sep l'
  end.

(** Truth value of a list: [if l]. *)
Definition truthy {A : Type} (l : list A) : bool :=
  match l with
  | [] => false
  | _ :: _ => true
  end.

(** [len(l)]. *)
Definition len {A : Type} (l : list A) : Z := Z.of_nat (List.length l).

(** [a / b] on integers: true division, which raises on a zero divisor. *)
Definition truediv (a b : Z) : result Q :=
  if b =? 0 then Raise ZeroDivisionError
  else Ok (inject_Z a / inject_Z b)%Q.

(** [d.get(key, default)] on a dict literal, kept as its list of items. *)
Fixpoint dict_get (d : list (string * Z)) (key : string) (default : Z) : Z :=
  match d with
  | [] => default
  | (k, v) :: d' => if String.eqb k key then v else dict_get d' key default
  end.

(** [max(xs, default=d)]. *)
Definition max_default (xs : list Z) (d : Z) : Z :=
  match xs with
  | [] => d
  | x :: xs' => fold_left Z.max xs' x
  end.

(** [round(x)] to the nearest integer, ties to the even neighbour. *)
Definition round_half_even (x : Q) : Z :=
  let f := Qfloor x in
  match (x - inject_Z f ?= 1 # 2)%Q with
  | Lt => f
  | Gt => f + 1
  | Eq => if Z.even f then f else f + 1
  end.

(** [round(x, 1)]. *)
Definition round1 (x : Q) : Q :=
  (inject_Z (round_half_even (x * 10)) / 10)%Q.

(** [a >= b] on numbers. *)
Definition geq (a b : Q) : bool := Qle_bool b a.

(** *** [repr] of a string and [str] of a list of strings *)

Definition squote : ascii := "'"%char.
Definition dquote : ascii := ascii_of_N 34.
Definition backslash : ascii := "\"%char.

Fixpoint has_char (c : ascii) (s : string) : bool :=
  match s with
  | EmptyString => false
  | String c' s' => Ascii.eqb c c' || has_char c s'
  end.

Definition hex_digit (n : N) : ascii :=
  if (n <? 10)%N then ascii_of_N (48 + n) else ascii_of_N (87 + n).

(** One character of [repr(s)]; characters outside printable ASCII are
    written as escapes. *)
Definition repr_char (quote c : ascii) : string :=
  let n := N_of_ascii c in
  if Ascii.eqb c quote || Ascii.eqb c backslash then
    String backslash (String c "")
  else if (n =? 9)%N then String backslash "t"
  else if (n =? 10)%N then String backslash "n"
  else if (n =? 13)%N then String backslash "r"
  else if ((n <? 32) || (126 <? n))%N then
    String backslash
      (String "x" (String (hex_digit (n / 16)) (String (hex_digit (n mod 16)) "")))
  else String c "".

Fixpoint repr_body (quote : ascii) (s : string) : string :=
  match s with
  | EmptyString => ""
  | String c s' => repr_char quote c ++ repr_body quote s'
  end.

(** [repr(s)]: single quotes, unless the text has a single quote and no
    double quote. *)
Definition repr_str (s : string) : string :=
  let quote :=
    if has_char squote s && negb (has_char dquote s) then dquote else squote in
  String quote (repr_body quote s ++ String quote "").

(** [str(l)] of a list of strings. *)
Definition str_list (l : list string) : string :=
  "[" ++ join ", " (map repr_str l) ++ "]".

End Py.

Import Py.
Local Open Scope py_scope.

(** ** The scoring code *)

(** [calculate_experience_score]. *)
Definition calculate_experience_score
    (candidate_years minimum_required : Z) : Z * string :=
  let '(score, assessment) :=
    if candidate_years >=? minimum_required then
      let bonus := Z.min ((candidate_years - minimum_required) * 5) 20 in
      (80 + bonus,
       "Meets requirement with " ++ str_int candidate_years
         ++ " years of experience")
    else
      let shortfall := minimum_required - candidate_years in
      (Z.max 0 (80 - shortfall * 15),
       "Below target (" ++ str_int candidate_years ++ " years vs "
         ++ str_int minimum_required ++ " required)")
  in
  (Z.min score 100, assessment).

(** The dict literal [education_hierarchy]. *)
Definition education_hierarchy : list (string * Z) :=
  [ ("High School or Certificate", 1);
    ("Associate Degree", 2);
    ("Bachelor's Degree", 3);
    ("Master's Degree", 4);
    ("PhD", 5) ].

(** The two levels that [calculate_education_score] compares. *)
Definition required_level (minimum_education : string) : Z :=
  dict_get education_hierarchy minimum_education 3.

Definition candidate_level (candidate_education : list string) : Z :=
  max_default
    (map (fun edu => dict_get education_hierarchy edu 0) candidate_education)
    0.

(** [calculate_education_score]. *)
Definition calculate_education_score
    (candidate_education : list string) (minimum_education : string)
    : result (Z * string) :=
  let required_level := required_level minimum_education in
  let candidate_level := candidate_level candidate_education in
  '(score, assessment) <-
    (if candidate_level >=? required_level then
       first <- index0 candidate_education ;;
       Ok (95, "Meets or exceeds requirement: " ++ first)
     else if candidate_level =? required_level - 1 then
       first <- index0 candidate_education ;;
       Ok (70, "One level below requirement: " ++ first)
     else
       shown <- (if truthy candidate_education
                 then index0 candidate_education
                 else Ok "Not specified") ;;
       Ok (Z.max 0 (50 - (required_level - candidate_level) * 15),
           "Below requirement: " ++ shown)) ;;
  Ok (Z.min score 100, assessment).

(** The test both loops of [calculate_skill_match_score] apply to a job skill:
    [any(job_lower in cand_skill.lower() for cand_skill in candidate_skills)]. *)
Definition skill_matched (candidate_skills : list string) (job_skill : string)
    : bool :=
  let job_lower := lower job_skill in
  existsb (fun cand_skill => str_in job_lower (lower cand_skill))
          candidate_skills.

(** [calculate_skill_match_score].  The first value bound to
    [matched_required] (the comprehension over [candidate_skills_lower]) is
    overwritten by the loop below it, as in the source. *)
Definition calculate_skill_match_score
    (candidate_skills required_skills preferred_skills nice_to_have : list string)
    : result (Q * list string * list string * list string) :=
  let candidate_skills_lower := map lower candidate_skills in
  let matched_required :=
    filter (fun s =>
              existsb (fun cand => str_in (lower s) cand) candidate_skills_lower)
           required_skills in
  let matched_required :=
    filter (skill_matched candidate_skills) required_skills in
  let missing_required :=
    filter (fun s => negb (list_in s matched_required)) required_skills in
  let matched_preferred :=
    filter (skill_matched candidate_skills) preferred_skills in
  required_match_rate <-
    (if truthy required_skills
     then truediv (len matched_required) (len required_skills)
     else Ok 0%Q) ;;
  preferred_match_rate <-
    (if truthy preferred_skills
     then truediv (len matched_preferred) (len preferred_skills)
     else Ok 0%Q) ;;
  let skill_score :=
    (required_match_rate * 70 + preferred_match_rate * 30)%Q in
  Ok (skill_score, matched_required, missing_required, matched_preferred).

(** The typed dicts of the module. *)
Record CandidateData : Type := {
  name : string;
  email : string;
  phone : option string;
  skills : list string;
  experience_years : Z;
  education : list string;
  past_roles : list string;
  summary : string
}.

Record JobRequirements : Type := {
  title : string;
  required_skills : list string;
  minimum_experience_years : Z;
  preferred_skills : list string;
  nice_to_have_skills : list string;
  minimum_education : string
}.

Record ScoringCriteria : Type := {
  required_skills_weight : Q;
  preferred_skills_weight : Q;
  experience_weight : Q;
  education_weight : Q;
  soft_skills_weight : Q
}.

(** The dict returned by [score_candidate]. *)
Record ScoringResults : Type := {
  overall_score : Q;
  skills_score : Q;
  experience_score : Q;
  education_score : Q;
  matched_required_skills : list string;
  missing_required_skills : list string;
  matched_preferred_skills : list string;
  experience_assessment : string;
  education_assessment : string
}.

(** The soft-skill estimate computed inline by [score_candidate]. *)
Definition soft_skills_keywords : list string :=
  ["leadership"; "communication"; "collaboration"; "management"; "team"].

Definition soft_skill_score (candidate_data : CandidateData) : Z :=
  let soft_skill_score := 60 in
  let soft_skill_score :=
    if existsb (fun kw => str_in kw (lower (summary candidate_data)))
               soft_skills_keywords
    then 80 else soft_skill_score in
  let soft_skill_score :=
    if existsb (fun kw => str_in kw (lower (str_list (past_roles candidate_data))))
               ["manager"; "lead"; "director"]
    then 90 else soft_skill_score in
  soft_skill_score.

(** The weighted sum of [score_candidate], before rounding. *)
Definition weighted_overall
    (skill_score : Q) (exp_score edu_score soft_skill_score : Z)
    (weights : ScoringCriteria) : Q :=
  (skill_score * required_skills_weight weights
   + skill_score * preferred_skills_weight weights * (1 # 2)
   + inject_Z exp_score * experience_weight weights
   + inject_Z edu_score * education_weight weights
   + inject_Z soft_skill_score * soft_skills_weight weights)%Q.

(** [score_candidate]. *)
Definition score_candidate
    (candidate_data : CandidateData) (job_requirements : JobRequirements)
    (weights : ScoringCriteria) : result ScoringResults :=
  '(skill_score, matched_req, missing_req, matched_pref) <-
    calculate_skill_match_score
      (skills candidate_data)
      (required_skills job_requirements)
      (preferred_skills job_requirements)
      (nice_to_have_skills job_requirements) ;;
  let '(exp_score, exp_assessment) :=
    calculate_experience_score
      (experience_years candidate_data)
      (minimum_experience_years job_requirements) in
  '(edu_score, edu_assessment) <-
    calculate_education_score
      (education candidate_data)
      (minimum_education job_requirements) ;;
  let soft_skill_score := soft_skill_score candidate_data in
  let overall_score :=
    weighted_overall skill_score exp_score edu_score soft_skill_score weights in
  Ok {| overall_score := round1 overall_score;
        skills_score := round1 skill_score;
        experience_score := round1 (inject_Z exp_score);
        education_score := round1 (inject_Z edu_score);
        matched_required_skills := matched_req;
        missing_required_skills := missing_req;
        matched_preferred_skills := matched_pref;
        experience_assessment := exp_assessment;
        education_assessment := edu_assessment |}.

Section Recommendation.

(** How an f-string renders a float: [repr] of the float.  The text depends
    on the binary representation, so it is a parameter of the model. *)
Variable str_float : Q -> string.

(** [generate_recommendation]. *)
Definition generate_recommendation
    (scoring_results : ScoringResults) (candidate_data : CandidateData)
    : result (string * string * string) :=
  let overall_score := overall_score scoring_results in
  let missing_required := missing_required_skills scoring_results in
  let matched_required := matched_required_skills scoring_results in
  let exp_score := experience_score scoring_results in
  if geq overall_score 80 && (len missing_required =? 0) then
    let recommendation := "hire" in
    let confidence := if geq overall_score 90 then "high" else "medium" in
    let reasoning :=
      "Strong candidate with " ++ str_float overall_score
        ++ "% overall score. Meets all required skills and experience requirements." in
    Ok (recommendation, confidence, reasoning)
  else if geq overall_score 70 && (len missing_required <=? 1) then
    let recommendation := "review" in
    let confidence := "medium" in
    reasoning <-
      (if truthy missing_required then
         first <- index0 missing_required ;;
         Ok ("Solid candidate (" ++ str_float overall_score ++ "%) but missing "
               ++ first ++ ". Worth reviewing for potential with training.")
       else
         Ok ("Good candidate (" ++ str_float overall_score
               ++ "%) but slightly below ideal experience level. Recommend interview to assess potential.")) ;;
    Ok (recommendation, confidence, reasoning)
  else if geq overall_score 60 then
    let recommendation := "review" in
    let confidence := "low" in
    let reasoning :=
      "Moderate candidate (" ++ str_float overall_score
        ++ "%) with gaps in required skills. May be trainable but requires further assessment." in
    Ok (recommendation, confidence, reasoning)
  else
    let recommendation := "pass" in
    let confidence := "high" in
    let reasoning :=
      "Does not meet minimum requirements (" ++ str_float overall_score
        ++ "%). Missing multiple critical skills: "
        ++ join ", " (firstn 2 missing_required) in
    Ok (recommendation, confidence, reasoning).

End Recommendation.

(** ** The design, in its own words *)

(** The wording of the design: a candidate skill contains a job skill when
    the lower-cased job skill is a contiguous part of the lower-cased
    candidate skill, and a job skill is matched by a candidate when some
    candidate skill contains it. *)
Definition contains_ignoring_case (cand_skill job_skill : string) : Prop :=
  exists pre post, lower cand_skill = pre ++ lower job_skill ++ post.

Definition matched_by (candidate_skills : list string) (job_skill : string)
    : Prop :=
  exists cand_skill,
    In cand_skill candidate_skills
    /\ contains_ignoring_case cand_skill job_skill.

(** The match rate in the wording of the design: matched count over the
    length of the job list, and 0 for an empty job list. *)
Definition match_rate_spec (matched_count job_count : Z) : Q :=
  if job_count =? 0 then 0%Q
  else (inject_Z matched_count / inject_Z job_count)%Q.

(** ** Sample values of the module *)

Definition SAMPLE_JOB_REQUIREMENTS : JobRequirements := {|
  title := "Digital Marketing Manager";
  required_skills :=
    ["Digital Marketing Strategy"; "Google Analytics"; "Content Marketing";
     "Email Marketing"];
  minimum_experience_years := 5;
  preferred_skills :=
    ["Marketing Automation"; "SEO"; "A/B Testing"; "Data Analysis"];
  nice_to_have_skills := ["Python"; "Figma"; "Salesforce"; "CRM"];
  minimum_education := "Bachelor's Degree"
|}.

Definition SCORING_WEIGHTS : ScoringCriteria := {|
  required_skills_weight := 35 # 100;
  preferred_skills_weight := 20 # 100;
  experience_weight := 25 # 100;
  education_weight := 10 # 100;
  soft_skills_weight := 10 # 100
|}.

(** Inputs used as examples below. *)
Definition sample_candidate : CandidateData := {|
  name := "John Smith";
  email := "john.smith@email.com";
  phone := Some "(555) 123-4567";
  skills := ["Digital Marketing Strategy"; "Google Analytics Certification"; "SEO"];
  experience_years := 7;
  education := ["Master's Degree"; "Bachelor's Degree"];
  past_roles := ["Senior Digital Marketing Manager"];
  summary := "Results-driven professional with 7+ years of marketing experience."
|}.

Definition candidate_without_education : CandidateData := {|
  name := "Jane Doe";
  email := "jane.doe@email.com";
  phone := None;
  skills := ["Social media"; "Writing"];
  experience_years := 0;
  education := [];
  past_roles := [];
  summary := ""
|}.

Definition entry_level_job : JobRequirements := {|
  title := "Customer Service Representative";
  required_skills := ["Customer Service"];
  minimum_experience_years := 0;
  preferred_skills := [];
  nice_to_have_skills := [];
  minimum_education := "High School or Certificate"
|}.

(** ** The rest of the pipeline *)

(** *** More string builtins *)

Module PyStr.

(** [c.isspace()] on an ASCII character. *)
Definition is_space (c : ascii) : bool :=
  let n := N_of_ascii c in
  (((9 <=? n) && (n <=? 13)) || ((28 <=? n) && (n <=? 32)))%N.

(** [s.lstrip()], [s.rstrip()] and [s.strip()]. *)
Fixpoint lstrip (s : string) : string :=
  match s with
  | EmptyString => EmptyString
  | String c s' => if is_space c then lstrip s' else s
  end.

Fixpoint rstrip (s : string) : string :=
  match s with
  | EmptyString => EmptyString
  | String c s' =>
      match rstrip s' with
      | EmptyString => if is_space c then EmptyString else String c EmptyString
      | kept => String c kept
      end
  end.

Definition strip (s : string) : string := rstrip (lstrip s).

(** [s.split(sep)] for a one-character separator. *)
Fixpoint split_char (sep : ascii) (s : string) : list string :=
  match s with
  | EmptyString => [EmptyString]
  | String c s' =>
      if Ascii.eqb c sep then EmptyString :: split_char sep s'
      else match split_char sep s' with
           | [] => [String c EmptyString]
           | piece :: pieces => String c piece :: pieces
           end
  end.

(** Truth value of a string: [if s]. *)
Definition str_truthy (s : string) : bool :=
  match s with
  | EmptyString => false
  | String _ _ => true
  end.

(** [l.append(x)], as the list afterwards. *)
Definition list_append {A : Type} (l : list A) (x : A) : list A :=
  (l ++ [x])%list.

(** [len(s)]. *)
Definition str_len (s : string) : Z := Z.of_nat (String.length s).

End PyStr.

Import PyStr.

(** *** What the pipeline takes from outside *)

(** The outcome of a block that talks to the text-generation service: it
    completes with a value, or something in it raises. *)
Inductive ApiReply (A : Type) : Type :=
| ApiValue (a : A)
| ApiFailed.

Arguments ApiValue {A} a.
Arguments ApiFailed {A}.

(** The JSON object parsed from the extraction reply, for a reply whose
    present keys hold values of the annotated types; a key may be absent.
    A reply with a null or a value of another type under a key is outside
    this record. *)
Record ExtractedJson : Type := {
  json_name : option string;
  json_email : option string;
  json_phone : option string;
  json_skills : option (list string);
  json_experience_years : option Z;
  json_education : option (list string);
  json_past_roles : option (list string);
  json_summary : option string
}.

(** The surroundings of a run: whether [from anthropic import Anthropic]
    succeeds, whether [ANTHROPIC_API_KEY] is set, what the service answers,
    the regular-expression engine ([re_search pattern text] is the text of
    the group that the code reads from the first match), [int] on the digits
    that were matched ([None] when it raises [ValueError], as it does beyond
    the interpreter's limit on the number of digits), and the clock. *)
Record Environment : Type := {
  anthropic_available : bool;
  api_key_set : bool;
  claude_extraction : string -> ApiReply ExtractedJson;
  claude_questions :
    CandidateData -> JobRequirements -> ScoringResults
    -> ApiReply (option (list string));
  re_search : string -> string -> option string;
  py_int : string -> option Z;
  now_isoformat : string
}.

(** [d.get(key, default)] on the parsed JSON object. *)
Definition json_get {A : Type} (field : option A) (default : A) : A :=
  match field with
  | Some v => v
  | None => default
  end.

(** *** Demo extraction *)

Definition skills_keywords : list string :=
  ["digital marketing"; "analytics"; "content marketing"; "seo";
   "email marketing"; "social media"; "marketing automation"; "hubspot";
   "google analytics"; "data analysis"; "a/b testing"; "python"; "figma";
   "salesforce"; "crm"; "excel"; "canva"; "copywriting"; "market research";
   "project management"; "leadership"; "communication"].

Definition role_keywords : list string :=
  ["Manager"; "Specialist"; "Coordinator"; "Director"; "Analyst";
   "Developer"; "Engineer"; "Consultant"; "Executive"; "Officer"].

(** The education labels that [extract_candidate_data_demo] reads off the
    resume text. *)
Definition demo_education (resume_text : string) : list string :=
  let education := [] in
  let education :=
    if str_in "MBA" resume_text || str_in "Master" resume_text
    then list_append education "Master's Degree" else education in
  let education :=
    if str_in "Bachelor" resume_text || str_in "B.S." resume_text
       || str_in "B.A." resume_text
    then list_append education "Bachelor's Degree" else education in
  let education :=
    if str_in "Associate" resume_text
    then list_append education "Associate Degree" else education in
  let education :=
    if negb (truthy education)
    then list_append education "High School or Certificate" else education in
  education.

(** The years of experience that [extract_candidate_data_demo] reads off
    the resume text: [int(exp_match.group(1)) if exp_match else 0]. *)
Definition demo_experience_years (env : Environment) (resume_text : string)
    : result Z :=
  match re_search env "(\d+)\s+years?" resume_text with
  | Some group =>
      match py_int env group with
      | Some years => Ok years
      | None => Raise ValueError
      end
  | None => Ok 0
  end.

(** The inner loop over [role_keywords] for one line: [Some role] when a
    role is appended (and the loop left by [break]). *)
Fixpoint role_of_line (keywords : list string) (line : string)
    : result (option string) :=
  match keywords with
  | [] => Ok None
  | keyword :: keywords' =>
      if str_in keyword line && str_in "|" line then
        first <- index0 (split_char "|"%char line) ;;
        let role := strip first in
        if str_truthy role && (str_len role <? 60) then Ok (Some role)
        else role_of_line keywords' line
      else role_of_line keywords' line
  end.

(** The outer loop over the lines of the resume. *)
Fixpoint collect_roles (lines : list string) (past_roles : list string)
    : result (list string) :=
  match lines with
  | [] => Ok past_roles
  | line :: lines' =>
      found <- role_of_line role_keywords line ;;
      collect_roles lines'
        match found with
        | Some role => list_append past_roles role
        | None => past_roles
        end
  end.

Definition newline : ascii := ascii_of_N 10.

(** [extract_candidate_data_demo]. *)
Definition extract_candidate_data_demo (env : Environment) (resume_text : string)
    : result CandidateData :=
  let name :=
    match re_search env "^([A-Z][a-z]+ [A-Z][a-z]+)" resume_text with
    | Some group => group
    | None => "Unknown Candidate"
    end in
  let email :=
    match re_search env "([a-zA-Z0-9._%+-]+@[a-zA-Z0-9.-]+\.[a-zA-Z]{2,})"
                    resume_text with
    | Some group => group
    | None => "unknown@email.com"
    end in
  let phone :=
    re_search env "\(?\d{3}\)?[-.\s]?\d{3}[-.\s]?\d{4}" resume_text in
  let skills :=
    filter (fun s => str_in (lower s) (lower resume_text)) skills_keywords in
  experience_years <- demo_experience_years env resume_text ;;
  let education := demo_education resume_text in
  past_roles <- collect_roles (split_char newline resume_text) [] ;;
  let summary :=
    "Experienced professional with demonstrated expertise in marketing and business operations." in
  let summary :=
    if experience_years >=? 5 then
      "Results-driven professional with " ++ str_int experience_years
        ++ "+ years of marketing experience and proven success in campaign management and strategy."
    else summary in
  Ok {| name := name;
        email := email;
        phone := phone;
        skills := skills;
        experience_years := experience_years;
        education := education;
        past_roles := firstn 3 past_roles;
        summary := summary |}.

(** [extract_candidate_data_with_claude]: the service's answer when the
    package and the key are there and nothing raises, the demo extraction
    otherwise. *)
Definition extract_candidate_data_with_claude
    (env : Environment) (resume_text : string) : result CandidateData :=
  if negb (anthropic_available env) then
    extract_candidate_data_demo env resume_text
  else if negb (api_key_set env) then
    extract_candidate_data_demo env resume_text
  else
    match claude_extraction env resume_text with
    | ApiValue extracted =>
        Ok {| name := json_get (json_name extracted) "Unknown";
              email := json_get (json_email extracted) "unknown@email.com";
              phone := json_phone extracted;
              skills := json_get (json_skills extracted) [];
              experience_years := json_get (json_experience_years extracted) 0;
              education := json_get (json_education extracted) [];
              past_roles := json_get (json_past_roles extracted) [];
              summary := json_get (json_summary extracted) "" |}
    | ApiFailed => extract_candidate_data_demo env resume_text
    end.

(** *** Interview questions *)

(** [_generate_questions_template]. *)
Definition _generate_questions_template
    (candidate_data : CandidateData) (job_requirements : JobRequirements)
    (scoring_results : ScoringResults) : result (list string) :=
  let questions : list string := [] in
  let missing_skills := missing_required_skills scoring_results in
  let questions :=
    list_append questions
     ("Can you walk us through your most successful "
        ++ lower (title job_requirements)
        ++ " project and the metrics you used to measure success?") in
  let questions :=
    if experience_years candidate_data >=? 5 then
      list_append questions
       "How have you evolved your approach to digital marketing strategy over the years, and what key lessons have you learned?"
    else
      list_append questions
       "What is your understanding of modern digital marketing best practices, and how do you stay current with industry trends?" in
  questions <-
    (if truthy missing_skills then
       skill <- index0 missing_skills ;;
       strong <- (if truthy (skills candidate_data)
                  then index0 (skills candidate_data)
                  else Ok "marketing") ;;
       Ok (list_append questions
             ("While we see you have strong " ++ strong
                ++ " skills, how would you approach learning " ++ skill
                ++ " in this role?"))
     else
       Ok (list_append questions
             "Tell us about a time when you had to develop a skill outside your comfort zone. How did you approach it?")) ;;
  let questions :=
    if str_in "lead" (lower (str_list (past_roles candidate_data)))
       || str_in "manager" (lower (str_list (past_roles candidate_data)))
    then
      list_append questions
       "Describe your leadership style and how you approach managing and developing team members."
    else
      list_append questions
       "Tell us about a time you successfully collaborated with people from different departments or with different expertise. What made it effective?" in
  let questions :=
    list_append questions
     "What attracts you to this role and our company, and where do you see yourself in 3 years?" in
  Ok questions.

(** [_generate_questions_with_claude]: the list in the service's answer, the
    template questions when the answer is not a list; [ApiFailed] when the
    call or the parsing raises. *)
Definition _generate_questions_with_claude
    (env : Environment) (candidate_data : CandidateData)
    (job_requirements : JobRequirements) (scoring_results : ScoringResults)
    : ApiReply (result (list string)) :=
  match claude_questions env candidate_data job_requirements scoring_results with
  | ApiFailed => ApiFailed
  | ApiValue (Some questions) => ApiValue (Ok questions)
  | ApiValue None =>
      ApiValue (_generate_questions_template
                  candidate_data job_requirements scoring_results)
  end.

(** [generate_interview_questions]: any exception of the service path is
    caught, and the template questions are returned instead. *)
Definition generate_interview_questions
    (env : Environment) (candidate_data : CandidateData)
    (job_requirements : JobRequirements) (scoring_results : ScoringResults)
    (api_fallback : bool) : result (list string) :=
  let template :=
    _generate_questions_template candidate_data job_requirements scoring_results in
  if negb api_fallback then
    if anthropic_available env then
      if api_key_set env then
        match _generate_questions_with_claude
                env candidate_data job_requirements scoring_results with
        | ApiValue (Ok questions) => Ok questions
        | ApiValue (Raise _) => template
        | ApiFailed => template
        end
      else template
    else template
  else template.

(** *** The screening report *)

Module Report.

Record ScreeningReport : Type := {
  candidate_name : string;
  candidate_email : string;
  job_title : string;
  screening_date : string;
  overall_score : Q;
  skills_score : Q;
  experience_score : Q;
  education_score : Q;
  matched_required_skills : list string;
  missing_required_skills : list string;
  matched_preferred_skills : list string;
  experience_assessment : string;
  education_assessment : string;
  recommendation : string;
  confidence : string;
  reasoning : string;
  interview_questions : list string;
  extracted_candidate_data : CandidateData
}.

End Report.

(** [screen_candidate] (its progress messages are not modelled). *)
Definition screen_candidate
    (env : Environment) (str_float : Q -> string) (resume_text : string)
    (job_requirements : JobRequirements) (scoring_weights : ScoringCriteria)
    : result Report.ScreeningReport :=
  candidate_data <- extract_candidate_data_with_claude env resume_text ;;
  scoring_results <- score_candidate candidate_data job_requirements scoring_weights ;;
  interview_questions <-
    generate_interview_questions
      env candidate_data job_requirements scoring_results false ;;
  '(recommendation, confidence, reasoning) <-
    generate_recommendation str_float scoring_results candidate_data ;;
  Ok {| Report.candidate_name := name candidate_data;
        Report.candidate_email := email candidate_data;
        Report.job_title := title job_requirements;
        Report.screening_date := now_isoformat env;
        Report.overall_score := overall_score scoring_results;
        Report.skills_score := skills_score scoring_results;
        Report.experience_score := experience_score scoring_results;
        Report.education_score := education_score scoring_results;
        Report.matched_required_skills := matched_required_skills scoring_results;
        Report.missing_required_skills := missing_required_skills scoring_results;
        Report.matched_preferred_skills := matched_preferred_skills scoring_results;
        Report.experience_assessment := experience_assessment scoring_results;
        Report.education_assessment := education_assessment scoring_results;
        Report.recommendation := recommendation;
        Report.confidence := confidence;
        Report.reasoning := reasoning;
        Report.interview_questions := interview_questions;
        Report.extracted_candidate_data :=
          {| name := name candidate_data;
             email := email candidate_data;
             phone := phone candidate_data;
             skills := skills candidate_data;
             experience_years := experience_years candidate_data;
             education := education candidate_data;
             past_roles := past_roles candidate_data;
             summary := summary candidate_data |} |}.

(** *** The weight presets of [job_config_template.py] *)

Definition TECHNICAL_ROLE_WEIGHTS : ScoringCriteria := {|
  required_skills_weight := 45 # 100;
  preferred_skills_weight := 25 # 100;
  experience_weight := 15 # 100;
  education_weight := 5 # 100;
  soft_skills_weight := 10 # 100
|}.

Definition MARKETING_ROLE_WEIGHTS : ScoringCriteria := {|
  required_skills_weight := 35 # 100;
  preferred_skills_weight := 20 # 100;
  experience_weight := 25 # 100;
  education_weight := 10 # 100;
  soft_skills_weight := 10 # 100
|}.

Definition MANAGEMENT_ROLE_WEIGHTS : ScoringCriteria := {|
  required_skills_weight := 30 # 100;
  preferred_skills_weight := 15 # 100;
  experience_weight := 25 # 100;
  education_weight := 15 # 100;
  soft_skills_weight := 15 # 100
|}.

Definition ENTRY_LEVEL_WEIGHTS : ScoringCriteria := {|
  required_skills_weight := 25 # 100;
  preferred_skills_weight := 15 # 100;
  experience_weight := 15 # 100;
  education_weight := 25 # 100;
  soft_skills_weight := 20 # 100
|}.

Definition WEIGHTS : list (string * ScoringCriteria) :=
  [ ("technical", TECHNICAL_ROLE_WEIGHTS);
    ("marketing", MARKETING_ROLE_WEIGHTS);
    ("management", MANAGEMENT_ROLE_WEIGHTS);
    ("entry_level", ENTRY_LEVEL_WEIGHTS) ].


(** The level of one education entry: its value in the hierarchy, 0 when it
    is not a key. *)
Definition level_of (edu : string) : Z := dict_get education_hierarchy edu 0.

(** The points the education scorer gives for a candidate level against a
    required level. *)
Definition education_points (candidate required : Z) : Z :=
  if candidate >=? required then 95
  else if candidate =? required - 1 then 70
  else Z.max 0 (50 - (required - candidate) * 15).

(** ** The weighted score in binary floating point *)

(** The definitions above read every number as an exact rational.  The
    weights of [score_candidate] are Python floats (IEEE 754 binary64), its
    sum is computed and rounded in that arithmetic, and on ties the result
    can differ from the exact one in the last digit.  This module gives the
    numeric part of the scoring code over binary64 itself: [float] is the
    type of doubles, with correctly rounded [+], [*] and [/]. *)

Module F64.

(** [float(n)], for an integer below [2^63] in absolute value. *)
Definition of_int (n : Z) : float :=
  if n <? 0 then PrimFloat.opp (PrimFloat.of_uint63 (Uint63.of_Z (- n)))
  else PrimFloat.of_uint63 (Uint63.of_Z n).

(** The exact value [m * 2^e] of a finite double. *)
Definition exact (m : positive) (e : Z) : Q :=
  if e <? 0 then Z.pos m # Z.to_pos (2 ^ (- e))
  else inject_Z (Z.pos m * 2 ^ e).

(** [round(x, 1)] on a double: the double nearest to the exact value of [x]
    rounded to a whole number of tenths, ties to the even tenth; zeros,
    infinities and NaN are returned as they are, and so is a double from
    [2^49] on, whose spacing is already coarser than a tenth. *)
Definition round1 (x : float) : float :=
  match Prim2SF x with
  | S754_finite negative m e =>
      if PrimFloat.ltb (PrimFloat.abs x) 562949953421312 then
        let tenths := round_half_even (exact m e * 10) in
        let rounded := PrimFloat.div (of_int tenths) 10 in
        if negative then PrimFloat.opp rounded else rounded
      else x
  | _ => x
  end.

(** A Python number: an [int] or a [float]. *)
Inductive number : Type :=
| Int (n : Z)
| Float (x : float).

Definition to_float (a : number) : float :=
  match a with
  | Int n => of_int n
  | Float x => x
  end.

(** [a * b] and [a + b]: integer arithmetic on two ints, float arithmetic
    once an operand is a float. *)
Definition mul (a b : number) : number :=
  match a, b with
  | Int m, Int n => Int (m * n)
  | _, _ => Float (PrimFloat.mul (to_float a) (to_float b))
  end.

Definition add (a b : number) : number :=
  match a, b with
  | Int m, Int n => Int (m + n)
  | _, _ => Float (PrimFloat.add (to_float a) (to_float b))
  end.

(** [a / b] on two ints: a float, or [ZeroDivisionError]. *)
Definition truediv (a b : Z) : result number :=
  if b =? 0 then Raise ZeroDivisionError
  else Ok (Float (PrimFloat.div (of_int a) (of_int b))).

(** [round(a, 1)]: an int is returned as it is. *)
Definition round (a : number) : number :=
  match a with
  | Int n => Int n
  | Float x => Float (round1 x)
  end.

Record ScoringCriteria : Type := {
  required_skills_weight : float;
  preferred_skills_weight : float;
  experience_weight : float;
  education_weight : float;
  soft_skills_weight : float
}.

Record ScoringResults : Type := {
  overall_score : number;
  skills_score : number;
  experience_score : number;
  education_score : number;
  matched_required_skills : list string;
  missing_required_skills : list string;
  matched_preferred_skills : list string;
  experience_assessment : string;
  education_assessment : string
}.

(** [calculate_skill_match_score], with the score as the code computes
    it. *)
Definition calculate_skill_match_score
    (candidate_skills required_skills preferred_skills nice_to_have : list string)
    : result (number * list string * list string * list string) :=
  let candidate_skills_lower := map lower candidate_skills in
  let matched_required :=
    filter (fun s =>
              existsb (fun cand => str_in (lower s) cand) candidate_skills_lower)
           required_skills in
  let matched_required :=
    filter (skill_matched candidate_skills) required_skills in
  let missing_required :=
    filter (fun s => negb (list_in s matched_required)) required_skills in
  let matched_preferred :=
    filter (skill_matched candidate_skills) preferred_skills in
  required_match_rate <-
    (if truthy required_skills
     then truediv (len matched_required) (len required_skills)
     else Ok (Int 0)) ;;
  preferred_match_rate <-
    (if truthy preferred_skills
     then truediv (len matched_preferred) (len preferred_skills)
     else Ok (Int 0)) ;;
  let skill_score :=
    add (mul required_match_rate (Int 70)) (mul preferred_match_rate (Int 30)) in
  Ok (skill_score, matched_required, missing_required, matched_preferred).

(** The weighted sum of [score_candidate], in the order in which Python
    evaluates it. *)
Definition weighted_overall
    (skill_score : number) (exp_score edu_score soft_skill_score : Z)
    (weights : ScoringCriteria) : number :=
  add (add (add (add (mul skill_score (Float (required_skills_weight weights)))
                     (mul (mul skill_score
                               (Float (preferred_skills_weight weights)))
                          (Float 0.5)))
                (mul (Int exp_score) (Float (experience_weight weights))))
           (mul (Int edu_score) (Float (education_weight weights))))
      (mul (Int soft_skill_score) (Float (soft_skills_weight weights))).

(** [score_candidate]. *)
Definition score_candidate
    (candidate_data : CandidateData) (job_requirements : JobRequirements)
    (weights : ScoringCriteria) : result ScoringResults :=
  '(skill_score, matched_req, missing_req, matched_pref) <-
    calculate_skill_match_score
      (skills candidate_data)
      (required_skills job_requirements)
      (preferred_skills job_requirements)
      (nice_to_have_skills job_requirements) ;;
  let '(exp_score, exp_assessment) :=
    calculate_experience_score
      (experience_years candidate_data)
      (minimum_experience_years job_requirements) in
  '(edu_score, edu_assessment) <-
    calculate_education_score
      (education candidate_data)
      (minimum_education job_requirements) ;;
  let soft_skill_score := soft_skill_score candidate_data in
  let overall_score :=
    weighted_overall skill_score exp_score edu_score soft_skill_score weights in
  Ok {| overall_score := round overall_score;
        skills_score := round skill_score;
        experience_score := round (Int exp_score);
        education_score := round (Int edu_score);
        matched_required_skills := matched_req;
        missing_required_skills := missing_req;
        matched_preferred_skills := matched_pref;
        experience_assessment := exp_assessment;
        education_assessment := edu_assessment |}.

(** [SCORING_WEIGHTS], each literal being the double nearest to it. *)
#[warnings="-inexact-float"]
Definition SCORING_WEIGHTS : ScoringCriteria := {|
  required_skills_weight := 0.35;
  preferred_skills_weight := 0.20;
  experience_weight := 0.25;
  education_weight := 0.10;
  soft_skills_weight := 0.10
|}.

End F64.

(** [DIGITAL_MARKETING_MANAGER] of [job_config_template.py], and a candidate
    for it. *)
Definition DIGITAL_MARKETING_MANAGER : JobRequirements := {|
  title := "Digital Marketing Manager";
  required_skills :=
    ["Digital Marketing Strategy"; "Google Analytics"; "Content Marketing";
     "Email Marketing"];
  minimum_experience_years := 5;
  preferred_skills :=
    ["Marketing Automation"; "SEO"; "A/B Testing"; "Data Analysis";
     "Social Media Marketing"];
  nice_to_have_skills :=
    ["Python"; "Figma"; "Salesforce"; "CRM"; "Paid Advertising"];
  minimum_education := "Bachelor's Degree"
|}.

Definition marketing_candidate : CandidateData := {|
  name := "Alex Kim";
  email := "alex.kim@email.com";
  phone := None;
  skills :=
    ["Digital Marketing Strategy"; "Google Analytics"; "Content Marketing";
     "Email Marketing"; "SEO"];
  experience_years := 4;
  education := ["Marketing Diploma"];
  past_roles := ["Marketing Manager"];
  summary := "Marketing professional."
|}.

(** ** Sanity checks on concrete inputs *)

Example experience_7_5 :
  calculate_experience_score 7 5
  = (90, "Meets requirement with 7 years of experience").
Proof. reflexivity. Qed.

Example experience_2_5 :
  calculate_experience_score 2 5
  = (35, "Below target (2 years vs 5 required)").
Proof. reflexivity. Qed.

Example score_sample_candidate :
  exists r,
    score_candidate sample_candidate SAMPLE_JOB_REQUIREMENTS SCORING_WEIGHTS
    = Ok r
    /\ (overall_score r == 601 # 10)%Q
    /\ (skills_score r == 425 # 10)%Q
    /\ missing_required_skills r = ["Content Marketing"; "Email Marketing"]
    /\ education_assessment r
       = "Meets or exceeds requirement: Master's Degree".
Proof. eexists. repeat split. Qed.

Example recommendation_55 :
  generate_recommendation (fun _ => "55.0")
    {| overall_score := 55; skills_score := 40;
       experience_score := 65; education_score := 70;
       matched_required_skills := [];
       missing_required_skills := ["A"; "B"; "C"];
       matched_preferred_skills := [];
       experience_assessment := ""; education_assessment := "" |}
    sample_candidate
  = Ok ("pass", "high",
        "Does not meet minimum requirements (55.0%). Missing multiple critical skills: A, B").
Proof. reflexivity. Qed.

Example str_int_samples :
  (str_int 0, str_int 120, str_int (-3)) = ("0", "120", "-3").
Proof. reflexivity. Qed.

Example str_list_samples :
  str_list ["Senior Manager"; "it's"] = "['Senior Manager', " ++ String dquote ("it's" ++ String dquote "]")
  /\ str_list [] = "[]"
  /\ str_list [String (ascii_of_N 29) "irector"] = "['\x1director']".
Proof. repeat split. Qed.

Example round1_samples :
  (round1 (1 # 4) == 2 # 10)%Q /\ (round1 (35 # 100) == 4 # 10)%Q
  /\ (round1 (8449 # 100) == 845 # 10)%Q /\ (round1 (- (7 # 4)) == - (18 # 10))%Q.
Proof. repeat split. Qed.

(** ** Facts about the builtins *)

Section StringFacts.

Lemma append_assoc (a b c : string) : (a ++ b) ++ c = a ++ b ++ c.
Proof. induction a as [|x a IH]; simpl; [reflexivity | now rewrite IH]. Qed.

Lemma prefix_iff (a s : string) :
  String.prefix a s = true <-> exists post, s = a ++ post.
Proof.
  revert s; induction a as [|c a IH]; intros s.
  - split; [intros _; now exists s | intros _; now destruct s].
  - destruct s as [|d s]; simpl.
    + split; [discriminate | intros [post H]; discriminate].
    + destruct (ascii_dec c d) as [->|Hne].
      * rewrite IH. split; intros [post H]; exists post.
        -- now rewrite H.
        -- now inversion H.
      * split; [discriminate | intros [post H]; inversion H; congruence].
Qed.

(** [str_in] is substring containment. *)
Lemma str_in_iff (sub s : string) :
  str_in sub s = true <-> exists pre post, s = pre ++ sub ++ post.
Proof.
  induction s as [|c s IH]; cbn [str_in].
  - rewrite orb_false_r, prefix_iff. split.
    + intros [post H]. now exists "", post.
    + intros [pre [post H]]. destruct pre; simpl in H.
      * now exists post.
      * discriminate.
  - rewrite orb_true_iff, prefix_iff, IH. split.
    + intros [[post H] | [pre [post H]]].
      * now exists "", post.
      * exists (String c pre), post. simpl. now rewrite H.
    + intros [pre [post H]]. destruct pre as [|d pre]; simpl in H.
      * left. now exists post.
      * right. inversion H. now exists pre, post.
Qed.

Lemma str_in_middle (pre sub post : string) :
  str_in sub (pre ++ sub ++ post) = true.
Proof. apply str_in_iff. now exists pre, post. Qed.

End StringFacts.

(** ** The experience scorer *)

Lemma experience_score_meets (cy mr : Z) :
  mr <= cy ->
  calculate_experience_score cy mr
  = (Z.min (80 + Z.min ((cy - mr) * 5) 20) 100,
     "Meets requirement with " ++ str_int cy ++ " years of experience").
Proof.
  intros H. unfold calculate_experience_score.
  destruct (Z.geb_spec cy mr) as [_|Hlt]; [reflexivity | lia].
Qed.

Lemma experience_score_below (cy mr : Z) :
  cy < mr ->
  calculate_experience_score cy mr
  = (Z.max 0 (80 - (mr - cy) * 15),
     "Below target (" ++ str_int cy ++ " years vs " ++ str_int mr
       ++ " required)").
Proof.
  intros H. unfold calculate_experience_score.
  destruct (Z.geb_spec cy mr) as [Hge|_]; [lia |].
  f_equal. lia.
Qed.

Lemma experience_score_range (cy mr : Z) :
  0 <= fst (calculate_experience_score cy mr) <= 100.
Proof.
  destruct (Z_le_gt_dec mr cy) as [H|H].
  - rewrite experience_score_meets by exact H. cbn [fst]. lia.
  - rewrite experience_score_below by lia. cbn [fst]. lia.
Qed.

(** C8: for non-negative years, a candidate at or above the minimum scores
    [80 + min((cy - mr) * 5, 20)] capped at 100 with a "Meets requirement"
    assessment that shows the candidate's years; a candidate below it scores
    [max(0, 80 - (mr - cy) * 15)] with a "Below target" assessment that shows
    both numbers; 7 years against a minimum of 5 scores 90. *)
Theorem C8_experience_score_formula :
  forall cy mr : Z, 0 <= cy -> 0 <= mr ->
    let '(score, assessment) := calculate_experience_score cy mr in
    (mr <= cy ->
       score = Z.min (80 + Z.min ((cy - mr) * 5) 20) 100
       /\ assessment
          = "Meets requirement with " ++ str_int cy ++ " years of experience"
       /\ str_in (str_int cy) assessment = true)
    /\ (cy < mr ->
       score = Z.max 0 (80 - (mr - cy) * 15)
       /\ assessment
          = "Below target (" ++ str_int cy ++ " years vs " ++ str_int mr
              ++ " required)"
       /\ str_in (str_int cy) assessment = true
       /\ str_in (str_int mr) assessment = true)
    /\ fst (calculate_experience_score 7 5) = 90.
Proof.
  intros cy mr _ _.
  destruct (calculate_experience_score cy mr) as [score assessment] eqn:E.
  split; [|split]; [intros H | intros H | reflexivity].
  - rewrite experience_score_meets in E by exact H.
    inversion E; subst; clear E.
    repeat split.
    exact (str_in_middle "Meets requirement with " (str_int cy)
                         " years of experience").
  - rewrite experience_score_below in E by exact H.
    inversion E; subst; clear E.
    repeat split.
    + exact (str_in_middle "Below target (" (str_int cy)
                           (" years vs " ++ str_int mr ++ " required)")).
    + apply str_in_iff.
      exists ("Below target (" ++ str_int cy ++ " years vs "), " required)".
      now rewrite !append_assoc.
Qed.

Lemma C8_experience_score_formula_witness :
  0 <= 7 /\ 0 <= 5 /\ 5 <= 7
  /\ fst (calculate_experience_score 7 5) = Z.min (80 + Z.min ((7 - 5) * 5) 20) 100
  /\ snd (calculate_experience_score 7 5)
     = "Meets requirement with 7 years of experience".
Proof.
  assert (H0 : 0 <= 7) by lia.
  assert (H1 : 0 <= 5) by lia.
  assert (H2 : 5 <= 7) by lia.
  destruct (proj1 (C8_experience_score_formula 7 5 H0 H1) H2) as [Hs [Ha _]].
  exact (conj H0 (conj H1 (conj H2 (conj Hs Ha)))).
Defined.

(** C9: for a fixed minimum, the experience score never decreases when the
    candidate's years increase, and the score always lies in [0, 100]. *)
Theorem C9_experience_score_monotone :
  (forall mr cy1 cy2 : Z,
      cy1 <= cy2 ->
      fst (calculate_experience_score cy1 mr)
      <= fst (calculate_experience_score cy2 mr))
  /\ (forall cy mr : Z,
      0 <= cy -> 0 <= mr ->
      0 <= fst (calculate_experience_score cy mr) <= 100).
Proof.
  split.
  - intros mr cy1 cy2 H.
    destruct (Z_le_gt_dec mr cy1) as [H1|H1];
      destruct (Z_le_gt_dec mr cy2) as [H2|H2].
    + rewrite !experience_score_meets by lia. cbn [fst]. lia.
    + lia.
    + rewrite (experience_score_below cy1), (experience_score_meets cy2) by lia.
      cbn [fst]. lia.
    + rewrite !experience_score_below by lia. cbn [fst]. lia.
  - intros cy mr _ _. apply experience_score_range.
Qed.

Lemma C9_experience_score_monotone_witness :
  3 <= 6
  /\ fst (calculate_experience_score 3 5) <= fst (calculate_experience_score 6 5)
  /\ 0 <= fst (calculate_experience_score 3 5) <= 100.
Proof.
  split; [lia | split].
  - apply (proj1 C9_experience_score_monotone 5 3 6). lia.
  - apply (proj2 C9_experience_score_monotone 3 5); lia.
Defined.

(** ** The education scorer *)

Lemma required_level_range (minimum_education : string) :
  1 <= required_level minimum_education <= 5.
Proof.
  unfold required_level, education_hierarchy, dict_get.
  repeat match goal with
         | |- context [String.eqb ?a ?b] => destruct (String.eqb a b)
         end; lia.
Qed.

Lemma fold_max_range (xs : list Z) (x hi : Z) :
  0 <= x <= hi -> Forall (fun y => 0 <= y <= hi) xs ->
  0 <= fold_left Z.max xs x <= hi.
Proof.
  intros Hx Hxs. revert x Hx.
  induction Hxs as [|y ys Hy _ IH]; intros x Hx; simpl; [exact Hx |].
  apply IH. lia.
Qed.

Lemma hierarchy_level_range (edu : string) :
  0 <= dict_get education_hierarchy edu 0 <= 5.
Proof.
  unfold education_hierarchy, dict_get.
  repeat match goal with
         | |- context [String.eqb ?a ?b] => destruct (String.eqb a b)
         end; lia.
Qed.

Lemma candidate_level_range (candidate_education : list string) :
  0 <= candidate_level candidate_education <= 5.
Proof.
  unfold candidate_level, max_default.
  destruct candidate_education as [|e es]; simpl; [lia |].
  apply fold_max_range.
  - apply hierarchy_level_range.
  - apply Forall_forall. intros y Hy.
    apply in_map_iff in Hy. destruct Hy as [edu [<- _]].
    apply hierarchy_level_range.
Qed.

(** The education scorer returns whenever the candidate lists an entry. *)
Lemma education_score_returns (e : string) (es : list string) (minimum : string) :
  exists score assessment,
    calculate_education_score (e :: es) minimum = Ok (score, assessment)
    /\ 0 <= score <= 95.
Proof.
  unfold calculate_education_score.
  set (r := required_level minimum).
  set (c := candidate_level (e :: es)).
  destruct (Z.geb_spec c r) as [Hge|Hlt]; [|destruct (c =? r - 1)];
    cbn [bind index0 truthy];
    eexists; eexists; (split; [reflexivity | lia]).
Qed.

(** With no entry listed, it returns exactly when the minimum is not the
    lowest level of the hierarchy. *)
Lemma education_score_empty (minimum : string) :
  calculate_education_score [] minimum
  = if required_level minimum =? 1 then Raise IndexError
    else Ok (Z.max 0 (50 - required_level minimum * 15),
             "Below requirement: Not specified").
Proof.
  unfold calculate_education_score.
  change (candidate_level []) with 0.
  pose proof (required_level_range minimum) as Hr.
  destruct (Z.geb_spec 0 (required_level minimum)) as [H|_]; [lia |].
  destruct (Z.eqb_spec 0 (required_level minimum - 1)) as [H|H].
  - replace (required_level minimum =? 1) with true by (symmetry; apply Z.eqb_eq; lia).
    reflexivity.
  - replace (required_level minimum =? 1) with false by (symmetry; apply Z.eqb_neq; lia).
    cbn [bind index0 truthy]. do 2 f_equal. lia.
Qed.

(** C5, with the score the code returns: an empty education list against
    "Bachelor's Degree" gives candidate level 0 and required level 3, and
    the education score is [max(0, 50 - 3 * 15) = 5]. *)
Theorem C5_education_empty_bachelor :
  candidate_level [] = 0
  /\ required_level "Bachelor's Degree" = 3
  /\ Z.max 0 (50 - (3 - 0) * 15) = 5
  /\ calculate_education_score [] "Bachelor's Degree"
     = Ok (5, "Below requirement: Not specified").
Proof. repeat (split; try reflexivity). Qed.

(** C5 with score 0 does not hold: the score returned for that input is
    not 0. *)
Lemma C5_education_score_is_not_zero :
  ~ (candidate_level [] = 0
     /\ required_level "Bachelor's Degree" = 3
     /\ exists assessment,
         calculate_education_score [] "Bachelor's Degree" = Ok (0, assessment)).
Proof. intros [_ [_ [assessment H]]]. discriminate H. Qed.

(** ** The skill matcher *)

Lemma skill_matched_iff (candidate_skills : list string) (job_skill : string) :
  skill_matched candidate_skills job_skill = true
  <-> matched_by candidate_skills job_skill.
Proof.
  unfold skill_matched, matched_by, contains_ignoring_case.
  rewrite existsb_exists.
  split; intros [cand [Hin H]]; exists cand; (split; [exact Hin |]);
    now apply str_in_iff.
Qed.

Lemma list_in_iff (x : string) (l : list string) :
  list_in x l = true <-> In x l.
Proof.
  unfold list_in. rewrite existsb_exists. split.
  - intros [y [Hin H]]. apply String.eqb_eq in H. now subst.
  - intros H. exists x. split; [exact H | apply String.eqb_refl].
Qed.

(** [s not in matched_required], for [s] taken from the required list, is
    the negation of the match test. *)
Lemma missing_required_filter (candidate_skills required_skills : list string) :
  filter (fun s => negb (list_in s (filter (skill_matched candidate_skills)
                                           required_skills)))
         required_skills
  = filter (fun s => negb (skill_matched candidate_skills s)) required_skills.
Proof.
  apply filter_ext_in. intros s Hin. f_equal.
  destruct (skill_matched candidate_skills s) eqn:E.
  - apply list_in_iff, filter_In. now split.
  - destruct (list_in s _) eqn:E'; [|reflexivity].
    apply list_in_iff, filter_In in E'. destruct E' as [_ E']. congruence.
Qed.

Lemma len_filter_le {A : Type} (f : A -> bool) (l : list A) :
  0 <= len (filter f l) <= len l.
Proof.
  unfold len. pose proof (filter_length_le f l). lia.
Qed.

Lemma truthy_len {A : Type} (l : list A) :
  truthy l = negb (len l =? 0).
Proof. destruct l; reflexivity. Qed.

(** The rate computed by the code for one job list. *)
Lemma match_rate_returns (matched job : list string) :
  (if truthy job then truediv (len matched) (len job) else Ok 0%Q)
  = Ok (match_rate_spec (len matched) (len job)).
Proof.
  unfold match_rate_spec, truediv. rewrite truthy_len.
  destruct (len job =? 0); reflexivity.
Qed.

Lemma match_rate_range (m n : Z) :
  0 <= m <= n -> (0 <= match_rate_spec m n <= 1)%Q.
Proof.
  intros H. unfold match_rate_spec.
  destruct (Z.eqb_spec n 0) as [Hn|Hn]; [split; discriminate |].
  assert (Hpos : (inject_Z 0 < inject_Z n)%Q) by (rewrite <- Zlt_Qlt; lia).
  change (inject_Z 0) with 0%Q in Hpos.
  split.
  - apply Qle_shift_div_l; [exact Hpos |].
    rewrite Qmult_0_l. change 0%Q with (inject_Z 0). rewrite <- Zle_Qle. lia.
  - apply Qle_shift_div_r; [exact Hpos |].
    rewrite Qmult_1_l. rewrite <- Zle_Qle. lia.
Qed.

(** What [calculate_skill_match_score] returns, for every input. *)
Lemma skill_match_score_returns
    (candidate_skills required_skills preferred_skills nice_to_have : list string) :
  calculate_skill_match_score
    candidate_skills required_skills preferred_skills nice_to_have
  = let matched_required :=
      filter (skill_matched candidate_skills) required_skills in
    let matched_preferred :=
      filter (skill_matched candidate_skills) preferred_skills in
    Ok ((match_rate_spec (len matched_required) (len required_skills) * 70
         + match_rate_spec (len matched_preferred) (len preferred_skills) * 30)%Q,
        matched_required,
        filter (fun s => negb (skill_matched candidate_skills s)) required_skills,
        matched_preferred).
Proof.
  unfold calculate_skill_match_score.
  rewrite !match_rate_returns, missing_required_filter. reflexivity.
Qed.

Lemma skill_score_range (candidate_skills required_skills preferred_skills : list string) :
  (0 <= match_rate_spec
          (len (filter (skill_matched candidate_skills) required_skills))
          (len required_skills) * 70
        + match_rate_spec
            (len (filter (skill_matched candidate_skills) preferred_skills))
            (len preferred_skills) * 30
     <= 100)%Q.
Proof.
  pose proof (match_rate_range _ _
                (len_filter_le (skill_matched candidate_skills) required_skills)).
  pose proof (match_rate_range _ _
                (len_filter_le (skill_matched candidate_skills) preferred_skills)).
  lra.
Qed.

(** C6: a job skill is matched exactly when some candidate skill contains
    it, ignoring case (the job skill inside the candidate skill, not the
    reverse); the matched and the missing required skills are the matched
    and the unmatched entries of the required list, in the order of that
    list; ["Google Analytics"] matches the required skill
    "google analytics". *)
Theorem C6_skill_matching :
  (forall (candidate_skills : list string) (job_skill : string),
      skill_matched candidate_skills job_skill = true
      <-> matched_by candidate_skills job_skill)
  /\ (forall candidate_skills required_skills preferred_skills nice_to_have,
      exists score,
        calculate_skill_match_score
          candidate_skills required_skills preferred_skills nice_to_have
        = Ok (score,
              filter (skill_matched candidate_skills) required_skills,
              filter (fun s => negb (skill_matched candidate_skills s))
                     required_skills,
              filter (skill_matched candidate_skills) preferred_skills))
  /\ (exists score,
        calculate_skill_match_score
          ["Google Analytics"] ["google analytics"] [] []
        = Ok (score, ["google analytics"], [], []))
  /\ skill_matched ["Google Analytics Certification"] "Google Analytics" = true
  /\ skill_matched ["Google"] "Google Analytics" = false.
Proof.
  split; [exact skill_matched_iff |].
  split; [| split; [| split; reflexivity]].
  - intros cs rs ps n. rewrite skill_match_score_returns. cbv zeta.
    eexists. reflexivity.
  - eexists. reflexivity.
Qed.

(** C7: the skill score is [requiredMatchRate * 70 + preferredMatchRate * 30],
    each rate being the number of matched skills of a job list (those some
    candidate skill contains, ignoring case) over the length of that list,
    and 0 for an empty job list; the function returns for every input (no
    division by zero) and the score lies in [0, 100]; the skills
    ["Social media", "Writing"] match none of the four required skills of
    the sample job, and the required side contributes 0; one of two
    required skills matched and the one preferred skill matched give 65. *)
Theorem C7_skill_score_formula :
  (forall candidate_skills required_skills preferred_skills nice_to_have,
      let matched_required :=
        filter (skill_matched candidate_skills) required_skills in
      let matched_preferred :=
        filter (skill_matched candidate_skills) preferred_skills in
      exists score missing_required,
        calculate_skill_match_score
          candidate_skills required_skills preferred_skills nice_to_have
        = Ok (score, matched_required, missing_required, matched_preferred)
        /\ score
           = (match_rate_spec (len matched_required) (len required_skills) * 70
              + match_rate_spec (len matched_preferred) (len preferred_skills) * 30)%Q
        /\ (0 <= score <= 100)%Q
        /\ (forall s, In s matched_required
                      <-> In s required_skills /\ matched_by candidate_skills s)
        /\ (forall s, In s matched_preferred
                      <-> In s preferred_skills /\ matched_by candidate_skills s))
  /\ (forall matched_count, match_rate_spec matched_count 0 = 0%Q)
  /\ (forall matched_count job_count,
        job_count <> 0 ->
        match_rate_spec matched_count job_count
        = (inject_Z matched_count / inject_Z job_count)%Q)
  /\ (forall preferred_skills nice_to_have,
      exists score missing_required matched_preferred,
        calculate_skill_match_score
          ["Social media"; "Writing"]
          ["Digital Marketing Strategy"; "Google Analytics";
           "Content Marketing"; "Email Marketing"]
          preferred_skills nice_to_have
        = Ok (score, [], missing_required, matched_preferred)
        /\ (match_rate_spec (len (@nil string)) 4 * 70 == 0)%Q)
  /\ (exists score,
        calculate_skill_match_score
          ["google analytics certification"; "Seo"]
          ["Google Analytics"; "Email Marketing"] ["SEO"] []
        = Ok (score, ["Google Analytics"], ["Email Marketing"], ["SEO"])
        /\ (score == 65)%Q).
Proof.
  split; [| split; [| split; [| split]]].
  - intros cs rs ps n mr mp. subst mr mp.
    rewrite skill_match_score_returns. cbv zeta.
    do 2 eexists. split; [reflexivity |]. split; [reflexivity |].
    split; [apply skill_score_range |].
    split; intros s; rewrite filter_In, skill_matched_iff; reflexivity.
  - reflexivity.
  - intros m n Hn. unfold match_rate_spec.
    destruct (Z.eqb_spec n 0) as [E|_]; [contradiction | reflexivity].
  - intros ps n. rewrite skill_match_score_returns. cbv zeta.
    do 3 eexists. split; reflexivity.
  - eexists. split; reflexivity.
Qed.

(** ** Rounding *)

Section Rounding.

Local Open Scope Q_scope.

(** [round_half_even x] is [floor x] or [floor x + 1], at distance at most
    one half from [x]. *)
Lemma round_half_even_cases (x : Q) :
  (round_half_even x = Qfloor x /\ x - inject_Z (Qfloor x) <= 1 # 2)
  \/ (round_half_even x = (Qfloor x + 1)%Z /\ 1 # 2 <= x - inject_Z (Qfloor x)).
Proof.
  unfold round_half_even.
  destruct (Qcompare_spec (x - inject_Z (Qfloor x)) (1 # 2)) as [H|H|H].
  - destruct (Z.even (Qfloor x)); [left | right]; split;
      try reflexivity; rewrite H; apply Qle_refl.
  - left. split; [reflexivity | now apply Qlt_le_weak].
  - right. split; [reflexivity | now apply Qlt_le_weak].
Qed.

Lemma round_half_even_close (x : Q) :
  Qabs (inject_Z (round_half_even x) - x) <= 1 # 2.
Proof.
  pose proof (Qfloor_le x) as Hlo. pose proof (Qlt_floor x) as Hhi.
  rewrite inject_Z_plus in Hhi. change (inject_Z 1) with 1 in Hhi.
  apply Qabs_Qle_condition.
  destruct (round_half_even_cases x) as [[-> H]|[-> H]].
  - split; lra.
  - rewrite inject_Z_plus. change (inject_Z 1) with 1. split; lra.
Qed.

Lemma round_half_even_between (a b : Z) (x : Q) :
  inject_Z a <= x <= inject_Z b ->
  (a <= round_half_even x <= b)%Z.
Proof.
  intros [Ha Hb].
  assert (Hfa : (a <= Qfloor x)%Z).
  { rewrite <- (Qfloor_Z a). now apply Qfloor_resp_le. }
  assert (Hfb : (Qfloor x <= b)%Z).
  { rewrite <- (Qfloor_Z b). now apply Qfloor_resp_le. }
  destruct (round_half_even_cases x) as [[-> H]|[-> H]]; [lia |].
  split; [lia |].
  assert (Hlt : inject_Z (Qfloor x) < inject_Z b) by lra.
  rewrite <- Zlt_Qlt in Hlt. lia.
Qed.

(** [round1 x] is a whole number of tenths, at most one twentieth away
    from [x]. *)
Lemma round1_tenths (x : Q) :
  round1 x == inject_Z (round_half_even (x * 10)) * (1 # 10).
Proof. unfold round1. field. Qed.


Lemma round1_range (x : Q) : 0 <= x <= 100 -> 0 <= round1 x <= 100.
Proof.
  intros Hx.
  assert (H : (0 <= round_half_even (x * 10) <= 1000)%Z).
  { apply round_half_even_between.
    change (inject_Z 0) with 0. change (inject_Z 1000) with 1000. lra. }
  destruct H as [H0 H1].
  rewrite Zle_Qle in H0, H1.
  change (inject_Z 0) with 0 in H0. change (inject_Z 1000) with 1000 in H1.
  rewrite round1_tenths. lra.
Qed.

End Rounding.

(** ** The aggregate score *)

Lemma soft_skill_score_range (c : CandidateData) :
  60 <= soft_skill_score c <= 90.
Proof.
  unfold soft_skill_score.
  destruct (existsb _ ["manager"; "lead"; "director"]); [lia |].
  destruct (existsb _ soft_skills_keywords); lia.
Qed.

(** [score_candidate] returns exactly when the education scorer does, and
    then its dict is built from the values of the four scorers. *)
Lemma score_candidate_returns
    (c : CandidateData) (j : JobRequirements) (w : ScoringCriteria)
    (skill_score : Q) (matched_req missing_req matched_pref : list string)
    (exp_score : Z) (exp_assessment : string)
    (edu_score : Z) (edu_assessment : string) :
  calculate_skill_match_score
    (skills c) (required_skills j) (preferred_skills j) (nice_to_have_skills j)
  = Ok (skill_score, matched_req, missing_req, matched_pref) ->
  calculate_experience_score (experience_years c) (minimum_experience_years j)
  = (exp_score, exp_assessment) ->
  calculate_education_score (education c) (minimum_education j)
  = Ok (edu_score, edu_assessment) ->
  score_candidate c j w
  = Ok {| overall_score :=
            round1 (weighted_overall skill_score exp_score edu_score
                                     (soft_skill_score c) w);
          skills_score := round1 skill_score;
          experience_score := round1 (inject_Z exp_score);
          education_score := round1 (inject_Z edu_score);
          matched_required_skills := matched_req;
          missing_required_skills := missing_req;
          matched_preferred_skills := matched_pref;
          experience_assessment := exp_assessment;
          education_assessment := edu_assessment |}.
Proof.
  intros Hs He Hd. unfold score_candidate.
  rewrite Hs, He, Hd. reflexivity.
Qed.

Lemma score_candidate_inv
    (c : CandidateData) (j : JobRequirements) (w : ScoringCriteria)
    (r : ScoringResults) :
  score_candidate c j w = Ok r ->
  exists skill_score matched_req missing_req matched_pref
         exp_score exp_assessment edu_score edu_assessment,
    calculate_skill_match_score
      (skills c) (required_skills j) (preferred_skills j)
      (nice_to_have_skills j)
    = Ok (skill_score, matched_req, missing_req, matched_pref)
    /\ calculate_experience_score
         (experience_years c) (minimum_experience_years j)
       = (exp_score, exp_assessment)
    /\ calculate_education_score (education c) (minimum_education j)
       = Ok (edu_score, edu_assessment).
Proof.
  intros H.
  destruct (calculate_skill_match_score (skills c) (required_skills j)
              (preferred_skills j) (nice_to_have_skills j))
    as [[[[s mr] ms] mp]|e] eqn:Hs.
  2:{ unfold score_candidate in H. rewrite Hs in H. discriminate H. }
  destruct (calculate_experience_score (experience_years c)
              (minimum_experience_years j)) as [x xa] eqn:He.
  destruct (calculate_education_score (education c) (minimum_education j))
    as [[d da]|e] eqn:Hd.
  2:{ unfold score_candidate in H. rewrite Hs, He, Hd in H. discriminate H. }
  now exists s, mr, ms, mp, x, xa, d, da.
Qed.

Lemma Ok_pair_inj {A B : Type} (a a' : A) (b b' : B) :
  Ok (a, b) = Ok (a', b') -> a = a' /\ b = b'.
Proof. intros H. inversion H. now split. Qed.

Lemma education_score_range (l : list string) (minimum : string)
    (score : Z) (assessment : string) :
  calculate_education_score l minimum = Ok (score, assessment) ->
  0 <= score <= 95.
Proof.
  destruct l as [|e es].
  - rewrite education_score_empty.
    destruct (required_level minimum =? 1); [discriminate |].
    intros H. apply Ok_pair_inj in H. destruct H as [<- _].
    pose proof (required_level_range minimum). lia.
  - destruct (education_score_returns e es minimum) as [s [a [E Hr]]].
    rewrite E. intros [= <- _]. exact Hr.
Qed.

Lemma skill_score_returned_range cs rs ps n score mr ms mp :
  calculate_skill_match_score cs rs ps n = Ok (score, mr, ms, mp) ->
  (0 <= score <= 100)%Q.
Proof.
  rewrite skill_match_score_returns. cbv zeta.
  intros [= <- _ _ _]. apply skill_score_range.
Qed.

Lemma weighted_overall_range
    (skill_score : Q) (exp_score edu_score soft : Z) (w : ScoringCriteria) :
  (0 <= skill_score <= 100)%Q ->
  0 <= exp_score <= 100 -> 0 <= edu_score <= 100 -> 0 <= soft <= 100 ->
  (0 <= required_skills_weight w)%Q -> (0 <= preferred_skills_weight w)%Q ->
  (0 <= experience_weight w)%Q -> (0 <= education_weight w)%Q ->
  (0 <= soft_skills_weight w)%Q ->
  (required_skills_weight w + preferred_skills_weight w + experience_weight w
   + education_weight w + soft_skills_weight w == 1)%Q ->
  (0 <= weighted_overall skill_score exp_score edu_score soft w <= 100)%Q.
Proof.
  intros Hs [Hx0 Hx1] [Hd0 Hd1] [Hf0 Hf1] Hrw Hpw Hew Hdw Hsw Hsum.
  unfold weighted_overall.
  rewrite Zle_Qle in Hx0, Hx1, Hd0, Hd1, Hf0, Hf1.
  change (inject_Z 0) with 0%Q in *. change (inject_Z 100) with 100%Q in *.
  set (rw := required_skills_weight w) in *.
  set (pw := preferred_skills_weight w) in *.
  set (ew := experience_weight w) in *.
  set (dw := education_weight w) in *.
  set (sw := soft_skills_weight w) in *.
  set (x := inject_Z exp_score) in *.
  set (d := inject_Z edu_score) in *.
  set (f := inject_Z soft) in *.
  split; nra.
Qed.

(** C4: with five non-negative weights that sum to 1, the overall score
    returned by [score_candidate] lies in [0, 100]; and the function does
    return whenever the candidate lists at least one education entry. *)
Theorem C4_overall_score_range :
  forall (c : CandidateData) (j : JobRequirements) (w : ScoringCriteria),
    (0 <= required_skills_weight w)%Q ->
    (0 <= preferred_skills_weight w)%Q ->
    (0 <= experience_weight w)%Q ->
    (0 <= education_weight w)%Q ->
    (0 <= soft_skills_weight w)%Q ->
    (required_skills_weight w + preferred_skills_weight w + experience_weight w
     + education_weight w + soft_skills_weight w == 1)%Q ->
    (forall r : ScoringResults,
        score_candidate c j w = Ok r -> (0 <= overall_score r <= 100)%Q)
    /\ (education c <> [] ->
        exists r : ScoringResults, score_candidate c j w = Ok r).
Proof.
  intros c j w Hrw Hpw Hew Hdw Hsw Hsum. split.
  - intros r Hr.
    destruct (score_candidate_inv c j w r Hr)
      as [s [mr [ms [mp [x [xa [d [da [Hs [Hx Hd]]]]]]]]]].
    rewrite (score_candidate_returns c j w _ _ _ _ _ _ _ _ Hs Hx Hd) in Hr.
    injection Hr as <-. cbn [overall_score].
    apply round1_range, weighted_overall_range; try assumption.
    + exact (skill_score_returned_range _ _ _ _ _ _ _ _ Hs).
    + pose proof (experience_score_range (experience_years c)
                    (minimum_experience_years j)) as H.
      rewrite Hx in H. exact H.
    + pose proof (education_score_range _ _ _ _ Hd). lia.
    + pose proof (soft_skill_score_range c). lia.
  - intros Hne.
    destruct (education c) as [|e es] eqn:He; [congruence |].
    destruct (education_score_returns e es (minimum_education j))
      as [d [da [Hd _]]].
    rewrite <- He in Hd.
    destruct (calculate_experience_score (experience_years c)
                (minimum_experience_years j)) as [x xa] eqn:Hx.
    eexists.
    refine (score_candidate_returns c j w _ _ _ _ _ _ _ _ _ Hx Hd).
    apply skill_match_score_returns.
Qed.

Lemma C4_overall_score_range_witness :
  exists r : ScoringResults,
    score_candidate sample_candidate SAMPLE_JOB_REQUIREMENTS SCORING_WEIGHTS = Ok r
    /\ (0 <= overall_score r <= 100)%Q.
Proof.
  assert (H0 : forall a b : positive, (0 <= Z.pos a # b)%Q) by (intros; discriminate).
  destruct (C4_overall_score_range
              sample_candidate SAMPLE_JOB_REQUIREMENTS SCORING_WEIGHTS
              (H0 _ _) (H0 _ _) (H0 _ _) (H0 _ _) (H0 _ _) eq_refl)
    as [Hrange Hret].
  destruct (Hret ltac:(discriminate)) as [r Hr].
  exists r. split; [exact Hr | exact (Hrange r Hr)].
Defined.

(** C10: two job profiles that agree on everything but the nice-to-have
    list give the same result of [score_candidate] (the same dict, or the
    same exception), and the skill matcher itself ignores that list. *)
Theorem C10_nice_to_have_is_inert :
  forall (c : CandidateData) (j1 j2 : JobRequirements) (w : ScoringCriteria),
    title j1 = title j2 ->
    required_skills j1 = required_skills j2 ->
    minimum_experience_years j1 = minimum_experience_years j2 ->
    preferred_skills j1 = preferred_skills j2 ->
    minimum_education j1 = minimum_education j2 ->
    score_candidate c j1 w = score_candidate c j2 w
    /\ calculate_skill_match_score
         (skills c) (required_skills j1) (preferred_skills j1)
         (nice_to_have_skills j1)
       = calculate_skill_match_score
           (skills c) (required_skills j2) (preferred_skills j2)
           (nice_to_have_skills j2).
Proof.
  intros c [t1 r1 m1 p1 n1 e1] [t2 r2 m2 p2 n2 e2] w; cbn.
  intros <- <- <- <- <-. split; reflexivity.
Qed.

Lemma C10_nice_to_have_is_inert_witness :
  score_candidate sample_candidate SAMPLE_JOB_REQUIREMENTS SCORING_WEIGHTS
  = score_candidate sample_candidate
      {| title := title SAMPLE_JOB_REQUIREMENTS;
         required_skills := required_skills SAMPLE_JOB_REQUIREMENTS;
         minimum_experience_years := 5;
         preferred_skills := preferred_skills SAMPLE_JOB_REQUIREMENTS;
         nice_to_have_skills := ["SEO"; "Google Analytics"];
         minimum_education := "Bachelor's Degree" |}
      SCORING_WEIGHTS.
Proof.
  apply (C10_nice_to_have_is_inert sample_candidate SAMPLE_JOB_REQUIREMENTS);
    reflexivity.
Defined.

(** ** The recommendation tiers *)

Lemma geq_true_iff (a b : Q) : geq a b = true <-> (b <= a)%Q.
Proof. apply Qle_bool_iff. Qed.

Lemma geq_false_iff (a b : Q) : geq a b = false <-> (a < b)%Q.
Proof.
  rewrite <- not_true_iff_false, geq_true_iff. split.
  - apply Qnot_le_lt.
  - apply Qlt_not_le.
Qed.

Lemma len_zero_iff {A : Type} (l : list A) : (len l =? 0) = true <-> l = [].
Proof. destruct l; cbn; split; intros H; try reflexivity; discriminate. Qed.

Lemma len_le_one_iff {A : Type} (l : list A) :
  (len l <=? 1) = true <-> (List.length l <= 1)%nat.
Proof. unfold len. rewrite Z.leb_le. lia. Qed.

Section RecommendationFacts.

Variable str_float : Q -> string.

Variables (r : ScoringResults) (c : CandidateData).

Lemma recommendation_tier_hire :
  (80 <= overall_score r)%Q -> missing_required_skills r = [] ->
  exists reasoning,
    generate_recommendation str_float r c
    = Ok ("hire", if geq (overall_score r) 90 then "high" else "medium", reasoning).
Proof.
  intros Ho Hm. unfold generate_recommendation.
  rewrite (proj2 (geq_true_iff (overall_score r) 80) Ho),
    (proj2 (len_zero_iff (missing_required_skills r)) Hm).
  cbn [andb]. eexists. reflexivity.
Qed.

Lemma recommendation_tier_review_medium :
  ~ ((80 <= overall_score r)%Q /\ missing_required_skills r = []) ->
  (70 <= overall_score r)%Q -> (List.length (missing_required_skills r) <= 1)%nat ->
  exists reasoning,
    generate_recommendation str_float r c = Ok ("review", "medium", reasoning).
Proof.
  intros H1 Ho Hm. unfold generate_recommendation.
  destruct (geq (overall_score r) 80 && (len (missing_required_skills r) =? 0)) eqn:E1.
  { exfalso. apply H1. apply andb_true_iff in E1. destruct E1 as [Ea Eb].
    split; [now apply geq_true_iff | now apply len_zero_iff]. }
  rewrite (proj2 (geq_true_iff (overall_score r) 70) Ho),
    (proj2 (len_le_one_iff (missing_required_skills r)) Hm).
  cbn [andb].
  destruct (missing_required_skills r) as [|x l]; cbn [truthy index0 bind];
    eexists; reflexivity.
Qed.

Lemma recommendation_tier_review_low :
  ~ ((80 <= overall_score r)%Q /\ missing_required_skills r = []) ->
  ~ ((70 <= overall_score r)%Q /\ (List.length (missing_required_skills r) <= 1)%nat) ->
  (60 <= overall_score r)%Q ->
  exists reasoning,
    generate_recommendation str_float r c = Ok ("review", "low", reasoning).
Proof.
  intros H1 H2 Ho. unfold generate_recommendation.
  destruct (geq (overall_score r) 80 && (len (missing_required_skills r) =? 0)) eqn:E1.
  { exfalso. apply H1. apply andb_true_iff in E1. destruct E1 as [Ea Eb].
    split; [now apply geq_true_iff | now apply len_zero_iff]. }
  destruct (geq (overall_score r) 70 && (len (missing_required_skills r) <=? 1)) eqn:E2.
  { exfalso. apply H2. apply andb_true_iff in E2. destruct E2 as [Ea Eb].
    split; [now apply geq_true_iff | now apply len_le_one_iff]. }
  rewrite (proj2 (geq_true_iff (overall_score r) 60) Ho). eexists. reflexivity.
Qed.

Lemma recommendation_tier_pass :
  ~ ((80 <= overall_score r)%Q /\ missing_required_skills r = []) ->
  ~ ((70 <= overall_score r)%Q /\ (List.length (missing_required_skills r) <= 1)%nat) ->
  (overall_score r < 60)%Q ->
  exists reasoning,
    generate_recommendation str_float r c = Ok ("pass", "high", reasoning).
Proof.
  intros H1 H2 Ho. unfold generate_recommendation.
  destruct (geq (overall_score r) 80 && (len (missing_required_skills r) =? 0)) eqn:E1.
  { exfalso. apply H1. apply andb_true_iff in E1. destruct E1 as [Ea Eb].
    split; [now apply geq_true_iff | now apply len_zero_iff]. }
  destruct (geq (overall_score r) 70 && (len (missing_required_skills r) <=? 1)) eqn:E2.
  { exfalso. apply H2. apply andb_true_iff in E2. destruct E2 as [Ea Eb].
    split; [now apply geq_true_iff | now apply len_le_one_iff]. }
  rewrite (proj2 (geq_false_iff (overall_score r) 60) Ho). eexists. reflexivity.
Qed.

(** The function returns for every input, with one of the three
    recommendations. *)
Lemma recommendation_returns :
  exists recommendation confidence reasoning,
    generate_recommendation str_float r c
    = Ok (recommendation, confidence, reasoning)
    /\ In recommendation ["hire"; "review"; "pass"]
    /\ In confidence ["high"; "medium"; "low"].
Proof.
  unfold generate_recommendation.
  destruct (geq (overall_score r) 80 && (len (missing_required_skills r) =? 0)).
  { do 3 eexists. split; [reflexivity |].
    destruct (geq (overall_score r) 90); cbn; auto. }
  destruct (geq (overall_score r) 70 && (len (missing_required_skills r) <=? 1)).
  { destruct (missing_required_skills r) as [|x l]; cbn [truthy index0 bind];
      do 3 eexists; (split; [reflexivity | cbn; auto]). }
  destruct (geq (overall_score r) 60); do 3 eexists; (split; [reflexivity | cbn; auto]).
Qed.

End RecommendationFacts.

(** C1: [generate_recommendation] tries four tiers in order and the first
    that applies decides: overall >= 80 with nothing missing gives "hire"
    (confidence "high" from 90, else "medium"); else overall >= 70 with at
    most one missing skill gives "review"/"medium"; else overall >= 60 gives
    "review"/"low"; else "pass"/"high".  Every input gets one of the three
    recommendations, and overall 85 with nothing missing gives
    "hire"/"medium". *)
Theorem C1_recommendation_tiers :
  forall (str_float : Q -> string) (r : ScoringResults) (c : CandidateData),
    let o := overall_score r in
    let m := missing_required_skills r in
    let tier1 := (80 <= o)%Q /\ m = [] in
    let tier2 := (70 <= o)%Q /\ (List.length m <= 1)%nat in
    (tier1 ->
       exists reasoning,
         generate_recommendation str_float r c
         = Ok ("hire", if Qle_bool 90 o then "high" else "medium", reasoning))
    /\ (~ tier1 -> tier2 ->
       exists reasoning,
         generate_recommendation str_float r c
         = Ok ("review", "medium", reasoning))
    /\ (~ tier1 -> ~ tier2 -> (60 <= o)%Q ->
       exists reasoning,
         generate_recommendation str_float r c
         = Ok ("review", "low", reasoning))
    /\ (~ tier1 -> ~ tier2 -> (o < 60)%Q ->
       exists reasoning,
         generate_recommendation str_float r c
         = Ok ("pass", "high", reasoning))
    /\ (exists recommendation confidence reasoning,
         generate_recommendation str_float r c
         = Ok (recommendation, confidence, reasoning)
         /\ In recommendation ["hire"; "review"; "pass"])
    /\ ((o == 85)%Q -> m = [] ->
       exists reasoning,
         generate_recommendation str_float r c
         = Ok ("hire", "medium", reasoning)).
Proof.
  intros str_float r c o m tier1 tier2.
  split; [| split; [| split; [| split; [| split]]]].
  - intros [Ho Hm]. now apply recommendation_tier_hire.
  - intros H1 [Ho Hm]. now apply recommendation_tier_review_medium.
  - intros H1 H2 Ho. now apply recommendation_tier_review_low.
  - intros H1 H2 Ho. now apply recommendation_tier_pass.
  - destruct (recommendation_returns str_float r c)
      as [rec [conf [reasoning [H [Hrec _]]]]].
    now exists rec, conf, reasoning.
  - intros Ho Hm.
    destruct (recommendation_tier_hire str_float r c) as [reasoning H].
    + fold o. rewrite Ho. discriminate.
    + exact Hm.
    + exists reasoning. rewrite H. fold o.
      replace (geq o 90) with false; [reflexivity |].
      symmetry. apply geq_false_iff. rewrite Ho. reflexivity.
Qed.

Lemma C1_recommendation_tiers_witness :
  exists reasoning,
    generate_recommendation (fun _ => "85.0")
      {| overall_score := 85; skills_score := 100;
         experience_score := 90; education_score := 95;
         matched_required_skills := ["Google Analytics"];
         missing_required_skills := [];
         matched_preferred_skills := [];
         experience_assessment := "Meets requirement with 7 years of experience";
         education_assessment := "Meets or exceeds requirement: PhD" |}
      sample_candidate
    = Ok ("hire", "medium", reasoning).
Proof.
  refine (proj1 (C1_recommendation_tiers (fun _ => "85.0") _ sample_candidate) _).
  split; [discriminate | reflexivity].
Defined.

(** ** Which scorers can raise *)

(** The skill matcher, the experience scorer (a pure function of two
    integers) and the recommendation never raise. *)
Lemma skill_match_score_total cs rs ps n :
  exists v, calculate_skill_match_score cs rs ps n = Ok v.
Proof. rewrite skill_match_score_returns. eexists. reflexivity. Qed.

Lemma generate_recommendation_total str_float r c :
  exists v, generate_recommendation str_float r c = Ok v.
Proof.
  destruct (recommendation_returns str_float r c) as [a [b [d [H _]]]].
  now exists (a, b, d).
Qed.

(** The education scorer raises exactly on an empty education list with a
    minimum at the lowest level of the hierarchy. *)
Lemma education_score_raises_iff (l : list string) (minimum : string) (e : exception) :
  calculate_education_score l minimum = Raise e
  <-> l = [] /\ required_level minimum = 1 /\ e = IndexError.
Proof.
  destruct l as [|x l].
  - rewrite education_score_empty.
    destruct (Z.eqb_spec (required_level minimum) 1) as [H|H]; split.
    + intros [= <-]. auto.
    + intros [_ [_ ->]]. reflexivity.
    + discriminate.
    + intros [_ [H' _]]. contradiction.
  - destruct (education_score_returns x l minimum) as [s [a [E _]]].
    rewrite E. split; [discriminate | intros [H _]; discriminate].
Qed.

(** C2: on an empty education list with the minimum
    "High School or Certificate" the education scorer takes the
    "One level below" branch, reads [candidate_education[0]] and raises
    [IndexError]; [score_candidate] raises with it.  The "Below requirement"
    branch of the same function guards the same read. *)
Theorem C2_education_score_raises_on_empty_list :
  candidate_level [] = required_level "High School or Certificate" - 1
  /\ calculate_education_score [] "High School or Certificate"
     = Raise IndexError
  /\ score_candidate candidate_without_education entry_level_job SCORING_WEIGHTS
     = Raise IndexError.
Proof. repeat (split; try reflexivity). Qed.

(** ** More about the skill matcher *)

Lemma filter_split_permutation {A : Type} (f : A -> bool) (l : list A) :
  Permutation (filter f l ++ filter (fun x => negb (f x)) l) l.
Proof.
  induction l as [|x l IH]; simpl; [constructor |].
  destruct (f x); simpl.
  - now constructor.
  - apply Permutation_sym, Permutation_cons_app, Permutation_sym, IH.
Qed.

Lemma filter_length_mono {A : Type} (f g : A -> bool) (l : list A) :
  (forall x, In x l -> f x = true -> g x = true) ->
  (List.length (filter f l) <= List.length (filter g l))%nat.
Proof.
  induction l as [|x l IH]; intros H; simpl; [lia |].
  assert (IH' := IH (fun y Hy => H y (or_intror Hy))).
  destruct (f x) eqn:Ef.
  - rewrite (H x (or_introl eq_refl) Ef). simpl. lia.
  - destruct (g x); simpl; lia.
Qed.

Lemma filter_all {A : Type} (f : A -> bool) (l : list A) :
  (forall x, In x l -> f x = true) -> filter f l = l.
Proof.
  induction l as [|x l IH]; intros H; simpl; [reflexivity |].
  rewrite (H x (or_introl eq_refl)), IH; [reflexivity |].
  intros y Hy. apply H. now right.
Qed.

Lemma filter_none {A : Type} (f : A -> bool) (l : list A) :
  (forall x, In x l -> f x = false) -> filter f l = [].
Proof.
  induction l as [|x l IH]; intros H; simpl; [reflexivity |].
  rewrite (H x (or_introl eq_refl)). apply IH.
  intros y Hy. apply H. now right.
Qed.

Lemma skill_matched_incl (cs cs' : list string) (s : string) :
  incl cs cs' -> skill_matched cs s = true -> skill_matched cs' s = true.
Proof.
  intros Hincl H. apply skill_matched_iff in H. apply skill_matched_iff.
  destruct H as [cand [Hin Hc]]. exists cand. split; [now apply Hincl | exact Hc].
Qed.

Lemma match_rate_mono (m m' n : Z) :
  m <= m' -> 0 <= n -> (match_rate_spec m n <= match_rate_spec m' n)%Q.
Proof.
  intros Hm Hn. unfold match_rate_spec.
  destruct (Z.eqb_spec n 0) as [E|E]; [apply Qle_refl |].
  assert (Hpos : (inject_Z 0 < inject_Z n)%Q) by (rewrite <- Zlt_Qlt; lia).
  change (inject_Z 0) with 0%Q in Hpos.
  unfold Qdiv. apply Qmult_le_compat_r.
  - rewrite <- Zle_Qle. exact Hm.
  - apply Qlt_le_weak, Qinv_lt_0_compat, Hpos.
Qed.

Lemma match_rate_full (n : Z) : n <> 0 -> (match_rate_spec n n == 1)%Q.
Proof.
  intros Hn. unfold match_rate_spec.
  destruct (Z.eqb_spec n 0) as [E|_]; [contradiction |].
  apply Qmult_inv_r. intros H.
  apply Hn. unfold Qeq in H. simpl in H. lia.
Qed.

(** The matched and the missing required skills split the required list:
    together they are a rearrangement of it, and no skill is in both. *)
Theorem skill_match_splits_required :
  forall candidate_skills required_skills preferred_skills nice_to_have,
  exists score matched_required missing_required matched_preferred,
    calculate_skill_match_score
      candidate_skills required_skills preferred_skills nice_to_have
    = Ok (score, matched_required, missing_required, matched_preferred)
    /\ Permutation (matched_required ++ missing_required) required_skills
    /\ len matched_required + len missing_required = len required_skills
    /\ (forall s, In s matched_required -> ~ In s missing_required)
    /\ incl matched_preferred preferred_skills.
Proof.
  intros cs rs ps n. rewrite skill_match_score_returns. cbv zeta.
  do 4 eexists. split; [reflexivity |].
  pose proof (filter_split_permutation (skill_matched cs) rs) as HP.
  split; [exact HP |]. split; [| split].
  - apply Permutation_length in HP. rewrite length_app in HP.
    unfold len. lia.
  - intros s H1 H2. apply filter_In in H1, H2.
    destruct H1 as [_ H1], H2 as [_ H2]. rewrite H1 in H2. discriminate.
  - intros s H. apply filter_In in H. tauto.
Qed.

Lemma append_empty_r (s : string) : s ++ "" = s.
Proof. induction s as [|c s IH]; simpl; [reflexivity | now rewrite IH]. Qed.

(** Listing more skills never hurts: when every skill of one candidate is
    also listed by another, the second one matches at least the same job
    skills, misses no more required skills and scores at least as much. *)
Theorem skill_match_monotone :
  forall cs cs' required_skills preferred_skills nice_to_have,
    incl cs cs' ->
    exists score mr ms mp score' mr' ms' mp',
      calculate_skill_match_score cs required_skills preferred_skills nice_to_have
      = Ok (score, mr, ms, mp)
      /\ calculate_skill_match_score
           cs' required_skills preferred_skills nice_to_have
         = Ok (score', mr', ms', mp')
      /\ (score <= score')%Q
      /\ incl mr mr' /\ incl ms' ms /\ incl mp mp'.
Proof.
  intros cs cs' rs ps n Hincl. rewrite !skill_match_score_returns. cbv zeta.
  do 8 eexists. split; [reflexivity |]. split; [reflexivity |].
  split; [| split; [| split]].
  - assert (Hr : forall l,
               (match_rate_spec (len (filter (skill_matched cs) l)) (len l)
                <= match_rate_spec (len (filter (skill_matched cs') l)) (len l))%Q).
    { intros l. apply match_rate_mono; unfold len; [| lia].
      apply inj_le, filter_length_mono.
      intros s _. now apply skill_matched_incl. }
    pose proof (Hr rs). pose proof (Hr ps). lra.
  - intros s H. apply filter_In in H. apply filter_In.
    split; [tauto |]. apply (skill_matched_incl cs cs'); tauto.
  - intros s H. apply filter_In in H. apply filter_In.
    split; [tauto |]. destruct H as [_ H].
    destruct (skill_matched cs s) eqn:E; [| reflexivity].
    rewrite (skill_matched_incl cs cs' s Hincl E) in H. discriminate.
  - intros s H. apply filter_In in H. apply filter_In.
    split; [tauto |]. apply (skill_matched_incl cs cs'); tauto.
Qed.

Lemma skill_match_monotone_witness :
  exists score score' ms ms',
    calculate_skill_match_score
      ["SEO"] ["Google Analytics"; "SEO"] ["Python"] []
    = Ok (score, ["SEO"], ms, [])
    /\ calculate_skill_match_score
         ["Python 3"; "SEO"] ["Google Analytics"; "SEO"] ["Python"] []
       = Ok (score', ["SEO"], ms', ["Python"])
    /\ (score <= score')%Q.
Proof.
  assert (Hincl : incl ["SEO"] ["Python 3"; "SEO"]).
  { intros s [<- | []]. right. now left. }
  destruct (skill_match_monotone
              ["SEO"] ["Python 3"; "SEO"] ["Google Analytics"; "SEO"] ["Python"] []
              Hincl)
    as [s [mr [ms [mp [s' [mr' [ms' [mp' [H1 [H2 [Hle _]]]]]]]]]]].
  exists s, s', ms, ms'.
  rewrite H1, H2.
  assert (E1 : mr = ["SEO"] /\ mp = []).
  { vm_compute in H1. injection H1 as _ <- _ <-. now split. }
  assert (E2 : mr' = ["SEO"] /\ mp' = ["Python"]).
  { vm_compute in H2. injection H2 as _ <- _ <-. now split. }
  destruct E1 as [-> ->], E2 as [-> ->].
  split; [reflexivity |]. split; [reflexivity | exact Hle].
Defined.

(** A candidate who lists every required and every preferred skill of the
    job, in any letter case, misses nothing and gets the full 100 points
    (both job lists being non-empty). *)
Theorem skill_match_full_marks :
  forall cs required_skills preferred_skills nice_to_have,
    required_skills <> [] -> preferred_skills <> [] ->
    (forall s, In s (required_skills ++ preferred_skills)%list ->
               exists cand, In cand cs /\ lower cand = lower s) ->
    exists score,
      calculate_skill_match_score cs required_skills preferred_skills nice_to_have
      = Ok (score, required_skills, [], preferred_skills)
      /\ (score == 100)%Q.
Proof.
  intros cs rs ps n Hrs Hps Hall.
  assert (Hm : forall s, In s (rs ++ ps)%list -> skill_matched cs s = true).
  { intros s Hs. destruct (Hall s Hs) as [cand [Hin Hl]].
    apply skill_matched_iff. exists cand. split; [exact Hin |].
    exists "", "". rewrite Hl, append_empty_r. reflexivity. }
  rewrite skill_match_score_returns. cbv zeta.
  rewrite (filter_all (skill_matched cs) rs),
    (filter_all (skill_matched cs) ps),
    (filter_none (fun s => negb (skill_matched cs s)) rs).
  - eexists. split; [reflexivity |].
    assert (Hr : len rs <> 0) by (unfold len; destruct rs; simpl; congruence || lia).
    assert (Hp : len ps <> 0) by (unfold len; destruct ps; simpl; congruence || lia).
    rewrite (match_rate_full _ Hr), (match_rate_full _ Hp). reflexivity.
  - intros s Hs. rewrite Hm; [reflexivity | apply in_or_app; now left].
  - intros s Hs. apply Hm, in_or_app. now right.
  - intros s Hs. apply Hm, in_or_app. now left.
Qed.

Lemma skill_match_full_marks_witness :
  exists score,
    calculate_skill_match_score
      ["seo"; "GOOGLE ANALYTICS"] ["Google Analytics"] ["SEO"] ["Python"]
    = Ok (score, ["Google Analytics"], [], ["SEO"])
    /\ (score == 100)%Q.
Proof.
  apply skill_match_full_marks; try discriminate.
  intros s [<- | [<- | []]].
  - exists "GOOGLE ANALYTICS". split; [right; now left | reflexivity].
  - exists "seo". split; [now left | reflexivity].
Defined.

(** Empty lists: with no preferred skills in the job the skill score cannot
    exceed 70, with no required skills it cannot exceed 30, and a candidate
    who lists no skill scores 0 and misses every required skill. *)
Theorem skill_match_empty_lists :
  (forall cs required_skills nice_to_have,
      exists score mr ms mp,
        calculate_skill_match_score cs required_skills [] nice_to_have
        = Ok (score, mr, ms, mp) /\ (score <= 70)%Q)
  /\ (forall cs preferred_skills nice_to_have,
      exists score mr ms mp,
        calculate_skill_match_score cs [] preferred_skills nice_to_have
        = Ok (score, mr, ms, mp) /\ (score <= 30)%Q)
  /\ (forall required_skills preferred_skills nice_to_have,
      exists score,
        calculate_skill_match_score [] required_skills preferred_skills nice_to_have
        = Ok (score, [], required_skills, [])
        /\ (score == 0)%Q).
Proof.
  split; [| split].
  - intros cs rs n. rewrite skill_match_score_returns. cbv zeta.
    do 4 eexists. split; [reflexivity |].
    pose proof (match_rate_range _ _ (len_filter_le (skill_matched cs) rs)) as H.
    change (match_rate_spec (len (filter (skill_matched cs) [])) (len (@nil string)))
      with 0%Q.
    lra.
  - intros cs ps n. rewrite skill_match_score_returns. cbv zeta.
    do 4 eexists. split; [reflexivity |].
    pose proof (match_rate_range _ _ (len_filter_le (skill_matched cs) ps)) as H.
    change (match_rate_spec (len (filter (skill_matched cs) [])) (len (@nil string)))
      with 0%Q.
    lra.
  - intros rs ps n. rewrite skill_match_score_returns. cbv zeta.
    rewrite !(filter_none (skill_matched [])) by reflexivity.
    rewrite filter_all by reflexivity.
    eexists. split; [reflexivity |].
    unfold match_rate_spec, len. simpl List.length. simpl Z.of_nat.
    destruct (Z.of_nat (List.length rs) =? 0), (Z.of_nat (List.length ps) =? 0);
      reflexivity.
Qed.

(** ** More about the education scorer *)

Lemma required_level_lowest_iff (minimum : string) :
  required_level minimum = 1 <-> minimum = "High School or Certificate".
Proof.
  unfold required_level, education_hierarchy, dict_get.
  destruct (String.eqb_spec "High School or Certificate" minimum) as [<-|H1];
    [split; reflexivity |].
  repeat match goal with
         | |- context [String.eqb ?a ?b] => destruct (String.eqb a b)
         end; split; intros H; try discriminate H; congruence.
Qed.

Lemma fold_max_ge (xs : list Z) (x : Z) :
  x <= fold_left Z.max xs x /\ Forall (fun y => y <= fold_left Z.max xs x) xs.
Proof.
  revert x. induction xs as [|y ys IH]; intros x; simpl.
  - split; [lia | constructor].
  - destruct (IH (Z.max x y)) as [H1 H2]. split; [lia |].
    constructor; [lia | exact H2].
Qed.

Lemma fold_max_in (xs : list Z) (x : Z) :
  fold_left Z.max xs x = x \/ In (fold_left Z.max xs x) xs.
Proof.
  revert x. induction xs as [|y ys IH]; intros x; simpl; [now left |].
  destruct (IH (Z.max x y)) as [H|H]; [| now right; right].
  rewrite H. destruct (Z.max_spec x y) as [[_ ->]|[_ ->]]; [right |]; now left.
Qed.

(** [candidate_level] is the highest level among the listed entries. *)
Lemma candidate_level_upper (l : list string) (e : string) :
  In e l -> level_of e <= candidate_level l.
Proof.
  unfold candidate_level, max_default. destruct l as [|x l]; [intros [] |].
  cbn [map]. intros [<- | H].
  - apply fold_max_ge.
  - destruct (fold_max_ge (map (fun edu => dict_get education_hierarchy edu 0) l)
                (dict_get education_hierarchy x 0)) as [_ HF].
    rewrite Forall_forall in HF. apply HF, in_map_iff. now exists e.
Qed.

Lemma candidate_level_attained (l : list string) :
  l <> [] -> exists e, In e l /\ level_of e = candidate_level l.
Proof.
  unfold candidate_level, max_default. destruct l as [|x l]; [congruence |].
  intros _. cbn [map].
  destruct (fold_max_in (map (fun edu => dict_get education_hierarchy edu 0) l)
              (dict_get education_hierarchy x 0)) as [H|H].
  - exists x. split; [now left | now rewrite H].
  - apply in_map_iff in H. destruct H as [e [He Hin]].
    exists e. split; [now right | exact He].
Qed.

Lemma candidate_level_incl (l1 l2 : list string) :
  l1 <> [] -> incl l1 l2 -> candidate_level l1 <= candidate_level l2.
Proof.
  intros Hne Hincl. destruct (candidate_level_attained l1 Hne) as [e [Hin <-]].
  apply candidate_level_upper, Hincl, Hin.
Qed.

(** What the scorer returns for a candidate who lists at least one entry. *)
Lemma education_score_listed (e : string) (es : list string) (minimum : string) :
  exists prefix,
    calculate_education_score (e :: es) minimum
    = Ok (education_points (candidate_level (e :: es)) (required_level minimum),
          prefix ++ e)
    /\ In prefix ["Meets or exceeds requirement: ";
                  "One level below requirement: ";
                  "Below requirement: "].
Proof.
  unfold calculate_education_score, education_points.
  set (r := required_level minimum). set (c := candidate_level (e :: es)).
  pose proof (required_level_range minimum) as Hr.
  pose proof (candidate_level_range (e :: es)) as Hc.
  fold r in Hr. fold c in Hc.
  destruct (Z.geb_spec c r) as [H|H]; [| destruct (Z.eqb_spec c (r - 1)) as [H'|H']];
    cbn [bind index0 truthy]; eexists;
    (split; [do 2 f_equal; lia | cbn; auto]).
Qed.

Lemma education_points_mono (c1 c2 r : Z) :
  c1 <= c2 -> education_points c1 r <= education_points c2 r.
Proof.
  intros H. unfold education_points.
  destruct (Z.geb_spec c1 r), (Z.geb_spec c2 r),
    (Z.eqb_spec c1 (r - 1)), (Z.eqb_spec c2 (r - 1)); lia.
Qed.

(** The education scorer raises exactly on an empty education list with the
    minimum "High School or Certificate", and then with [IndexError]; on
    every other input it returns a score. *)
Theorem education_score_raises_exactly :
  forall (l : list string) (minimum : string) (e : exception),
    calculate_education_score l minimum = Raise e
    <-> l = [] /\ minimum = "High School or Certificate" /\ e = IndexError.
Proof.
  intros l minimum e. rewrite education_score_raises_iff, required_level_lowest_iff.
  reflexivity.
Qed.

(** A minimum-education label outside the hierarchy is treated exactly as
    "Bachelor's Degree". *)
Theorem education_unrecognised_minimum :
  forall (l : list string) (minimum : string),
    ~ In minimum (map fst education_hierarchy) ->
    calculate_education_score l minimum
    = calculate_education_score l "Bachelor's Degree".
Proof.
  intros l minimum H.
  assert (E : required_level minimum = required_level "Bachelor's Degree").
  { unfold required_level, education_hierarchy, dict_get.
    unfold education_hierarchy in H. cbn [map fst In] in H.
    repeat match goal with
           | |- context [String.eqb ?a minimum] =>
               destruct (String.eqb_spec a minimum) as [?|?]; [exfalso; tauto |]
           end.
    reflexivity. }
  unfold calculate_education_score. rewrite E. reflexivity.
Qed.

Lemma education_unrecognised_minimum_witness :
  calculate_education_score ["Associate Degree"] "Diploma"
  = calculate_education_score ["Associate Degree"] "Bachelor's Degree".
Proof.
  apply education_unrecognised_minimum.
  cbn. intros H. repeat (destruct H as [H|H]; [discriminate H |]). exact H.
Defined.

(** For a candidate who lists at least one entry the score is one of 0, 5,
    20, 70, 95; it is 95 exactly when the highest listed level reaches the
    required one; and the assessment quotes the first listed entry, also
    when another entry is the one that meets the requirement. *)
Theorem education_score_listed_values :
  (forall (e : string) (es : list string) (minimum : string),
      exists score prefix,
        calculate_education_score (e :: es) minimum = Ok (score, prefix ++ e)
        /\ In score [0; 5; 20; 70; 95]
        /\ (score = 95
            <-> required_level minimum <= candidate_level (e :: es)))
  /\ calculate_education_score
       ["High School or Certificate"; "PhD"] "Master's Degree"
     = Ok (95, "Meets or exceeds requirement: High School or Certificate").
Proof.
  split; [| reflexivity].
  intros e es minimum.
  destruct (education_score_listed e es minimum) as [prefix [H _]].
  eexists. exists prefix. split; [exact H |].
  pose proof (required_level_range minimum) as Hr.
  pose proof (candidate_level_range (e :: es)) as Hc.
  unfold education_points.
  set (r := required_level minimum) in *. set (c := candidate_level (e :: es)) in *.
  destruct (Z.geb_spec c r) as [Hge|Hlt].
  - split; [cbn; tauto | split; [lia | reflexivity]].
  - destruct (Z.eqb_spec c (r - 1)) as [E|E].
    + split; [cbn; tauto | split; [discriminate | lia]].
    + assert (Hd : r - c = 2 \/ r - c = 3 \/ r - c = 4 \/ r - c = 5) by lia.
      split.
      * destruct Hd as [Hd|[Hd|[Hd|Hd]]]; rewrite Hd; cbn; tauto.
      * split; [| lia].
        destruct Hd as [Hd|[Hd|[Hd|Hd]]]; rewrite Hd; discriminate.
Qed.

(** Listing more never lowers the education score: if every entry of one
    non-empty list is in a second list, the second scores at least as much.
    In particular the score does not depend on the order of the entries. *)
Theorem education_score_monotone :
  forall (l1 l2 : list string) (minimum : string),
    l1 <> [] -> incl l1 l2 ->
    exists score1 assessment1 score2 assessment2,
      calculate_education_score l1 minimum = Ok (score1, assessment1)
      /\ calculate_education_score l2 minimum = Ok (score2, assessment2)
      /\ score1 <= score2.
Proof.
  intros l1 l2 minimum Hne Hincl.
  pose proof (candidate_level_incl l1 l2 Hne Hincl) as Hle.
  destruct l1 as [|e1 es1]; [congruence |].
  destruct l2 as [|e2 es2]; [exfalso; apply (Hincl e1); now left |].
  destruct (education_score_listed e1 es1 minimum) as [p1 [H1 _]].
  destruct (education_score_listed e2 es2 minimum) as [p2 [H2 _]].
  do 4 eexists. split; [exact H1 |]. split; [exact H2 |].
  now apply education_points_mono.
Qed.

Lemma education_score_monotone_witness :
  exists score1 assessment1 score2 assessment2,
    calculate_education_score ["Associate Degree"] "Master's Degree"
    = Ok (score1, assessment1)
    /\ calculate_education_score
         ["Bachelor's Degree"; "Associate Degree"] "Master's Degree"
       = Ok (score2, assessment2)
    /\ score1 <= score2.
Proof.
  apply education_score_monotone; [discriminate |].
  intros s [<- | []]. right. now left.
Defined.

(** ** More about the experience scorer *)

(** The experience score is 100 exactly from four years above the minimum,
    0 exactly from six years below it, at least 80 when the minimum is met
    and at most 65 when it is not; and it depends only on the difference of
    the two numbers. *)
Theorem experience_score_thresholds :
  forall cy mr : Z,
    (fst (calculate_experience_score cy mr) = 100 <-> mr + 4 <= cy)
    /\ (fst (calculate_experience_score cy mr) = 0 <-> cy + 6 <= mr)
    /\ (80 <= fst (calculate_experience_score cy mr) <-> mr <= cy)
    /\ (fst (calculate_experience_score cy mr) <= 65 <-> cy < mr)
    /\ (forall k : Z,
          fst (calculate_experience_score (cy + k) (mr + k))
          = fst (calculate_experience_score cy mr)).
Proof.
  intros cy mr.
  assert (Hk : forall k, fst (calculate_experience_score (cy + k) (mr + k))
                         = fst (calculate_experience_score cy mr)).
  { intros k. destruct (Z_le_gt_dec mr cy) as [H|H].
    - rewrite !experience_score_meets by lia. cbn [fst]. lia.
    - rewrite !experience_score_below by lia. cbn [fst]. lia. }
  refine (conj _ (conj _ (conj _ (conj _ Hk))));
    (destruct (Z_le_gt_dec mr cy) as [H|H];
     [rewrite experience_score_meets by lia
     | rewrite experience_score_below by lia]);
    cbn [fst]; lia.
Qed.

(** ** The soft-skill estimate *)

Lemma lower_app (a b : string) : lower (a ++ b) = lower a ++ lower b.
Proof. induction a as [|c a IH]; simpl; [reflexivity | now rewrite IH]. Qed.

Lemma lower_app_inv (s a b : string) :
  lower s = a ++ b -> exists s1 s2, s = s1 ++ s2 /\ lower s1 = a /\ lower s2 = b.
Proof.
  revert s. induction a as [|c a IH]; intros s H.
  - exists "", s. repeat split. exact H.
  - destruct s as [|d s]; [discriminate H |].
    simpl in H. injection H as Hc H.
    destruct (IH s H) as [s1 [s2 [-> [H1 H2]]]].
    exists (String d s1), s2. simpl. rewrite Hc, H1. repeat split. exact H2.
Qed.

Lemma repr_body_app (q : ascii) (a b : string) :
  repr_body q (a ++ b) = repr_body q a ++ repr_body q b.
Proof.
  induction a as [|c a IH]; simpl; [reflexivity |].
  now rewrite IH, append_assoc.
Qed.

(** A character that lower-cases to a letter is written by [repr] as it
    is. *)
Lemma repr_char_letter (q c : ascii) :
  q = squote \/ q = dquote ->
  (97 <= N_of_ascii (lower_char c) <= 122)%N ->
  repr_char q c = String c "".
Proof.
  intros Hq [H1 H2].
  destruct c as [[] [] [] [] [] [] [] []];
    try (exfalso; vm_compute in H1; now apply H1);
    try (exfalso; vm_compute in H2; now apply H2);
    destruct Hq as [-> | ->]; reflexivity.
Qed.

Lemma has_char_lower (c : ascii) (s : string) :
  has_char c s = true -> has_char (lower_char c) (lower s) = true.
Proof.
  induction s as [|d s IH]; simpl; [discriminate |].
  intros H. apply orb_true_iff in H. apply orb_true_iff.
  destruct H as [H|H]; [left | right; now apply IH].
  apply Ascii.eqb_eq in H. subst. apply Ascii.eqb_refl.
Qed.

Lemma repr_body_letters (q : ascii) (s : string) :
  q = squote \/ q = dquote ->
  (forall d, has_char d (lower s) = true -> (97 <= N_of_ascii d <= 122)%N) ->
  repr_body q s = s.
Proof.
  intros Hq. induction s as [|c s IH]; intros H; simpl; [reflexivity |].
  rewrite repr_char_letter, IH; try assumption; [reflexivity | |].
  - intros d Hd. apply H. simpl. rewrite Hd. apply orb_true_r.
  - apply H. simpl. now rewrite Ascii.eqb_refl.
Qed.

Lemma str_in_inside (sub a m b : string) :
  str_in sub m = true -> str_in sub (a ++ m ++ b) = true.
Proof.
  intros H. apply str_in_iff in H. destruct H as [pre [post ->]].
  apply str_in_iff. exists (a ++ pre), (post ++ b).
  now rewrite !append_assoc.
Qed.

Lemma repr_keeps_letters (q : ascii) (role kw : string) :
  q = squote \/ q = dquote ->
  (forall d, has_char d kw = true -> (97 <= N_of_ascii d <= 122)%N) ->
  str_in kw (lower role) = true ->
  str_in kw (lower (repr_body q role)) = true.
Proof.
  intros Hq Hkw H. apply str_in_iff in H. destruct H as [pre [post H]].
  apply lower_app_inv in H. destruct H as [r1 [rest [-> [H1 H]]]].
  apply lower_app_inv in H. destruct H as [x [r2 [-> [Hx H2]]]].
  rewrite !repr_body_app, !lower_app.
  rewrite (repr_body_letters q x Hq) by (now rewrite Hx).
  rewrite Hx. apply str_in_middle.
Qed.

Lemma join_has (sep x : string) (l : list string) :
  In x l -> exists pre post, join sep l = pre ++ x ++ post.
Proof.
  induction l as [|y l IH]; [intros [] |].
  intros [-> | H].
  - destruct l as [|z l].
    + exists "", "". simpl. now rewrite append_empty_r.
    + exists "", (sep ++ join sep (z :: l)). reflexivity.
  - destruct (IH H) as [pre [post E]].
    destruct l as [|z l]; [destruct H |].
    exists (y ++ sep ++ pre), post.
    change (join sep (y :: z :: l)) with (y ++ sep ++ join sep (z :: l)).
    rewrite E. now rewrite !append_assoc.
Qed.

(** A keyword of letters found in a role title is found in the lower-cased
    text of the whole list. *)
Lemma str_list_keeps_letters (roles : list string) (role kw : string) :
  In role roles ->
  (forall d, has_char d kw = true -> (97 <= N_of_ascii d <= 122)%N) ->
  str_in kw (lower role) = true ->
  str_in kw (lower (str_list roles)) = true.
Proof.
  intros Hin Hkw H.
  destruct (join_has ", " (repr_str role) (map repr_str roles)) as [pre [post E]].
  { apply in_map_iff. now exists role. }
  unfold str_list. rewrite E. unfold repr_str.
  set (q := if has_char squote role && negb (has_char dquote role)
            then dquote else squote).
  assert (Hq : q = squote \/ q = dquote).
  { unfold q. destruct (has_char squote role && negb (has_char dquote role)); auto. }
  change (String q (repr_body q role ++ String q ""))
    with (String q "" ++ repr_body q role ++ String q "").
  pose proof (repr_keeps_letters q role kw Hq Hkw H) as K.
  apply str_in_iff in K. destruct K as [a [b K]].
  rewrite !lower_app, K.
  apply str_in_iff.
  exists (lower "[" ++ lower pre ++ lower (String q "") ++ a),
    (b ++ lower (String q "") ++ lower post ++ lower "]").
  now rewrite !append_assoc.
Qed.

Lemma role_keyword_letters (kw : string) :
  In kw ["manager"; "lead"; "director"] ->
  forall d, has_char d kw = true -> (97 <= N_of_ascii d <= 122)%N.
Proof.
  intros [<-|[<-|[<-|[]]]] d H; cbn [has_char] in H;
    repeat (apply orb_true_iff in H;
            destruct H as [H|H];
            [apply Ascii.eqb_eq in H; subst d; vm_compute; split; discriminate |]);
    discriminate H.
Qed.

(** The soft-skill estimate is 60, 80 or 90.  A past role that contains
    "manager", "lead" or "director" in any letter case gives 90 whatever the
    summary says; 80 needs a keyword in the summary; an empty summary with no
    past role gives the base 60. *)
Theorem soft_skill_role_override :
  forall c : CandidateData,
    In (soft_skill_score c) [60; 80; 90]
    /\ ((exists role kw,
            In role (past_roles c)
            /\ In kw ["manager"; "lead"; "director"]
            /\ str_in kw (lower role) = true) ->
        soft_skill_score c = 90)
    /\ (soft_skill_score c = 80 ->
        exists kw, In kw soft_skills_keywords
                   /\ str_in kw (lower (summary c)) = true)
    /\ (summary c = "" -> past_roles c = [] -> soft_skill_score c = 60).
Proof.
  intros c. unfold soft_skill_score. split; [| split; [| split]].
  - destruct (existsb _ ["manager"; "lead"; "director"]); [cbn; tauto |].
    destruct (existsb _ soft_skills_keywords); cbn; tauto.
  - intros [role [kw [Hrole [Hkw H]]]].
    replace (existsb _ ["manager"; "lead"; "director"]) with true; [reflexivity |].
    symmetry. apply existsb_exists. exists kw. split; [exact Hkw |].
    apply (str_list_keeps_letters _ role); try assumption.
    now apply role_keyword_letters.
  - destruct (existsb _ ["manager"; "lead"; "director"]); [discriminate |].
    destruct (existsb _ soft_skills_keywords) eqn:E; [| discriminate].
    intros _. apply existsb_exists in E. exact E.
  - intros -> ->. reflexivity.
Qed.

Lemma soft_skill_role_override_witness :
  soft_skill_score
    {| name := ""; email := ""; phone := None; skills := [];
       experience_years := 0; education := [];
       past_roles := ["Intern"; "TEAM LEADER"]; summary := "" |} = 90.
Proof.
  apply soft_skill_role_override.
  exists "TEAM LEADER", "lead". cbn. repeat split; auto.
Defined.

(** ** More about the aggregate *)

Lemma round_half_even_comp (x y : Q) :
  (x == y)%Q -> round_half_even x = round_half_even y.
Proof.
  intros H. unfold round_half_even.
  rewrite (Qfloor_comp x y H).
  rewrite (Qcompare_comp (x - inject_Z (Qfloor y))%Q (y - inject_Z (Qfloor y))%Q
             ltac:(now rewrite H) (1 # 2)%Q (1 # 2)%Q (Qeq_refl _)).
  reflexivity.
Qed.

Lemma round_half_even_Z (n : Z) : round_half_even (inject_Z n) = n.
Proof.
  unfold round_half_even. rewrite Qfloor_Z.
  replace (inject_Z n - inject_Z n ?= 1 # 2)%Q with Lt; [reflexivity |].
  symmetry. apply Qlt_alt. unfold Qminus. rewrite Qplus_opp_r. reflexivity.
Qed.

(** Rounding to one decimal leaves an integer as it is. *)
Lemma round1_Z (n : Z) : (round1 (inject_Z n) == inject_Z n)%Q.
Proof.
  rewrite round1_tenths.
  rewrite (round_half_even_comp (inject_Z n * 10)%Q (inject_Z (n * 10))).
  - rewrite round_half_even_Z, inject_Z_mult. change (inject_Z 10) with 10%Q.
    field.
  - rewrite inject_Z_mult. reflexivity.
Qed.

Lemma round_half_even_mono (x y : Q) :
  (x <= y)%Q -> round_half_even x <= round_half_even y.
Proof.
  intros Hxy.
  pose proof (Qfloor_resp_le x y Hxy) as Hf.
  pose proof (Qfloor_le x) as Hx0. pose proof (Qlt_floor x) as Hx1.
  pose proof (Qfloor_le y) as Hy0. pose proof (Qlt_floor y) as Hy1.
  destruct (Z.eq_dec (Qfloor x) (Qfloor y)) as [E|E].
  - destruct (round_half_even_cases x) as [[Hx Hdx]|[Hx Hdx]];
      destruct (round_half_even_cases y) as [[Hy Hdy]|[Hy Hdy]];
      try lia.
    (* x rounds up, y rounds down, same floor: then x == y *)
    assert (Heq : (x == y)%Q).
    { rewrite E in Hdx. apply Qle_antisym; [exact Hxy | lra]. }
    rewrite (round_half_even_comp x y Heq). lia.
  - assert (Hlt : Qfloor x + 1 <= Qfloor y) by lia.
    destruct (round_half_even_cases x) as [[Hx _]|[Hx _]];
      destruct (round_half_even_cases y) as [[Hy _]|[Hy _]]; lia.
Qed.


(** [score_candidate] raises exactly when the candidate lists no education
    and the job asks for "High School or Certificate", and then with
    [IndexError]; the skills, the experience and the weights play no part. *)
Theorem score_candidate_raises_exactly :
  forall (c : CandidateData) (j : JobRequirements) (w : ScoringCriteria)
         (e : exception),
    score_candidate c j w = Raise e
    <-> education c = []
        /\ minimum_education j = "High School or Certificate"
        /\ e = IndexError.
Proof.
  intros c j w e. unfold score_candidate.
  rewrite skill_match_score_returns. cbv zeta. cbn [bind].
  destruct (calculate_experience_score _ _) as [x xa].
  rewrite <- required_level_lowest_iff, <- education_score_raises_iff.
  destruct (calculate_education_score (education c) (minimum_education j))
    as [[d da]|e'] eqn:E; cbn [bind].
  - split; discriminate.
  - split; intros [= ->]; reflexivity.
Qed.

Lemma score_candidate_raises_iff
    (c : CandidateData) (j : JobRequirements) (w : ScoringCriteria)
    (e : exception) :
  score_candidate c j w = Raise e
  <-> education c = []
      /\ minimum_education j = "High School or Certificate"
      /\ e = IndexError.
Proof.
  unfold score_candidate.
  rewrite skill_match_score_returns. cbv zeta. cbn [bind].
  destruct (calculate_experience_score _ _) as [x xa].
  rewrite <- required_level_lowest_iff, <- education_score_raises_iff.
  destruct (calculate_education_score (education c) (minimum_education j))
    as [[d da]|e'] eqn:E; cbn [bind].
  - split; discriminate.
  - split; intros [= ->]; reflexivity.
Qed.

(** In the dict that [score_candidate] returns, the experience and the
    education score are the scorers' integers (rounding to one decimal does
    not change them), the skills score lies in [0, 100], the matched and the
    missing required skills together rearrange the job's required list, and
    the matched preferred skills come from the job's preferred list. *)
Theorem score_candidate_result_invariants :
  forall (c : CandidateData) (j : JobRequirements) (w : ScoringCriteria)
         (r : ScoringResults),
    score_candidate c j w = Ok r ->
    (experience_score r
     == inject_Z (fst (calculate_experience_score
                         (experience_years c) (minimum_experience_years j))))%Q
    /\ (exists edu_score,
          calculate_education_score (education c) (minimum_education j)
          = Ok (edu_score, education_assessment r)
          /\ (education_score r == inject_Z edu_score)%Q)
    /\ (0 <= skills_score r <= 100)%Q
    /\ Permutation (matched_required_skills r ++ missing_required_skills r)
                   (required_skills j)
    /\ incl (matched_preferred_skills r) (preferred_skills j).
Proof.
  intros c j w r Hr.
  destruct (score_candidate_inv c j w r Hr)
    as [s [mr [ms [mp [x [xa [d [da [Hs [Hx Hd]]]]]]]]]].
  rewrite (score_candidate_returns c j w _ _ _ _ _ _ _ _ Hs Hx Hd) in Hr.
  injection Hr as <-. cbn [experience_score education_score skills_score
                           matched_required_skills missing_required_skills
                           matched_preferred_skills education_assessment].
  rewrite Hx. cbn [fst].
  split; [apply round1_Z |].
  split; [exists d; split; [exact Hd | apply round1_Z] |].
  split; [apply round1_range;
          exact (skill_score_returned_range _ _ _ _ _ _ _ _ Hs) |].
  rewrite skill_match_score_returns in Hs. cbv zeta in Hs.
  injection Hs as _ <- <- <-.
  split; [apply filter_split_permutation |].
  intros s0 H. apply filter_In in H. tauto.
Qed.

Lemma score_candidate_result_invariants_witness :
  exists r,
    score_candidate sample_candidate SAMPLE_JOB_REQUIREMENTS SCORING_WEIGHTS
    = Ok r
    /\ (experience_score r == 90)%Q
    /\ (0 <= skills_score r <= 100)%Q.
Proof.
  destruct (skill_match_score_total
              (skills sample_candidate)
              (required_skills SAMPLE_JOB_REQUIREMENTS)
              (preferred_skills SAMPLE_JOB_REQUIREMENTS)
              (nice_to_have_skills SAMPLE_JOB_REQUIREMENTS))
    as [[[[s mr] ms] mp] Hs].
  pose proof (score_candidate_returns
                sample_candidate SAMPLE_JOB_REQUIREMENTS SCORING_WEIGHTS
                s mr ms mp _ _ _ _ Hs eq_refl eq_refl) as Hr.
  eexists. split; [exact Hr |].
  destruct (score_candidate_result_invariants _ _ _ _ Hr) as [He [_ [Hk _]]].
  split; [exact He | exact Hk].
Defined.





(** ** More about the recommendation *)

(** Reading a recommendation backwards. *)
Lemma recommendation_inv
    (str_float : Q -> string) (r : ScoringResults) (c : CandidateData)
    (recommendation confidence reasoning : string) :
  generate_recommendation str_float r c
  = Ok (recommendation, confidence, reasoning) ->
  (recommendation = "hire"
   <-> (80 <= overall_score r)%Q /\ missing_required_skills r = [])
  /\ (recommendation = "pass" <-> (overall_score r < 60)%Q)
  /\ (recommendation = "review"
      <-> (60 <= overall_score r)%Q
          /\ ~ ((80 <= overall_score r)%Q /\ missing_required_skills r = []))
  /\ (confidence = "high"
      <-> (recommendation = "hire" /\ (90 <= overall_score r)%Q)
          \/ recommendation = "pass")
  /\ (confidence = "low"
      <-> recommendation = "review"
          /\ ~ ((70 <= overall_score r)%Q
                /\ (List.length (missing_required_skills r) <= 1)%nat)).
Proof.
  intros H.
  assert (D1 : {(80 <= overall_score r)%Q /\ missing_required_skills r = []}
               + {~ ((80 <= overall_score r)%Q /\ missing_required_skills r = [])}).
  { destruct (Qlt_le_dec (overall_score r) 80) as [Hlt|Hge];
      [right; intros [A _]; lra |].
    destruct (missing_required_skills r) as [|x l];
      [left; now split | right; intros [_ A]; discriminate A]. }
  assert (D2 : {(70 <= overall_score r)%Q
                /\ (List.length (missing_required_skills r) <= 1)%nat}
               + {~ ((70 <= overall_score r)%Q
                     /\ (List.length (missing_required_skills r) <= 1)%nat)}).
  { destruct (Qlt_le_dec (overall_score r) 70) as [Hlt|Hge];
      [right; intros [A _]; lra |].
    destruct (le_dec (List.length (missing_required_skills r)) 1);
      [left; now split | right; intros [_ A]; contradiction]. }
  destruct D1 as [T1|T1].
  - destruct (recommendation_tier_hire str_float r c (proj1 T1) (proj2 T1))
      as [x Hx].
    rewrite Hx in H. injection H as <- <- <-.
    destruct T1 as [Ho Hm].
    destruct (geq (overall_score r) 90) eqn:E90;
      [apply geq_true_iff in E90 | apply geq_false_iff in E90];
      repeat split; intros; try discriminate; try tauto; try lra;
      try (exfalso; intuition (discriminate || lra)); intuition.
  - destruct D2 as [T2|T2].
    + destruct (recommendation_tier_review_medium
                  str_float r c T1 (proj1 T2) (proj2 T2)) as [x Hx].
      rewrite Hx in H. injection H as <- <- <-.
      destruct T2 as [Ho Hm].
      repeat split; intros; try discriminate; try tauto; try lra;
        try (exfalso; intuition (discriminate || lra)); intuition.
    + destruct (Qlt_le_dec (overall_score r) 60) as [Hlt|Hge].
      * destruct (recommendation_tier_pass str_float r c T1 T2 Hlt) as [x Hx].
        rewrite Hx in H. injection H as <- <- <-.
        repeat split; intros; try discriminate; try tauto; try lra;
          try (exfalso; intuition (discriminate || lra)); intuition.
      * destruct (recommendation_tier_review_low str_float r c T1 T2 Hge)
          as [x Hx].
        rewrite Hx in H. injection H as <- <- <-.
        repeat split; intros; try discriminate; try tauto; try lra;
          try (exfalso; intuition (discriminate || lra)); intuition.
Qed.

(** The recommendation read backwards: "hire" is returned exactly for an
    overall score of at least 80 with no missing required skill, "pass"
    exactly for an overall score below 60 (whatever is missing), "review" in
    between; confidence "high" goes with "pass" and with "hire" from 90, and
    "low" with a "review" that fails the second tier. *)
Theorem recommendation_reads_back :
  forall (str_float : Q -> string) (r : ScoringResults) (c : CandidateData)
         (recommendation confidence reasoning : string),
    generate_recommendation str_float r c
    = Ok (recommendation, confidence, reasoning) ->
    (recommendation = "hire"
     <-> (80 <= overall_score r)%Q /\ missing_required_skills r = [])
    /\ (recommendation = "pass" <-> (overall_score r < 60)%Q)
    /\ (recommendation = "review"
        <-> (60 <= overall_score r)%Q
            /\ ~ ((80 <= overall_score r)%Q /\ missing_required_skills r = []))
    /\ (confidence = "high"
        <-> (recommendation = "hire" /\ (90 <= overall_score r)%Q)
            \/ recommendation = "pass")
    /\ (confidence = "low"
        <-> recommendation = "review"
            /\ ~ ((70 <= overall_score r)%Q
                  /\ (List.length (missing_required_skills r) <= 1)%nat)).
Proof. exact recommendation_inv. Qed.

Lemma recommendation_reads_back_witness :
  (overall_score
     {| overall_score := 55; skills_score := 40;
        experience_score := 65; education_score := 70;
        matched_required_skills := [];
        missing_required_skills := ["A"; "B"; "C"];
        matched_preferred_skills := [];
        experience_assessment := ""; education_assessment := "" |} < 60)%Q.
Proof.
  refine (proj1 (proj1 (proj2 (recommendation_reads_back
            (fun _ => "55.0")
            {| overall_score := 55; skills_score := 40;
               experience_score := 65; education_score := 70;
               matched_required_skills := [];
               missing_required_skills := ["A"; "B"; "C"];
               matched_preferred_skills := [];
               experience_assessment := ""; education_assessment := "" |}
            sample_candidate "pass" "high" _ eq_refl))) eq_refl).
Defined.

(** A "hire" for a scored candidate means that every required skill of the
    job is matched by one of the candidate's skills, and that the overall
    score is at least 80. *)
Theorem hire_means_every_required_skill_matched :
  forall (str_float : Q -> string) (c : CandidateData) (j : JobRequirements)
         (w : ScoringCriteria) (r : ScoringResults)
         (confidence reasoning : string),
    score_candidate c j w = Ok r ->
    generate_recommendation str_float r c = Ok ("hire", confidence, reasoning) ->
    (forall s, In s (required_skills j) -> matched_by (skills c) s)
    /\ matched_required_skills r = required_skills j
    /\ (80 <= overall_score r)%Q.
Proof.
  intros f c j w r conf reasoning Hr Hg.
  destruct (proj1 (proj1 (recommendation_inv f r c _ _ _ Hg)) eq_refl)
    as [Ho Hm].
  destruct (score_candidate_inv c j w r Hr)
    as [s [mr [ms [mp [x [xa [d [da [Hs [Hx Hd]]]]]]]]]].
  rewrite (score_candidate_returns c j w _ _ _ _ _ _ _ _ Hs Hx Hd) in Hr.
  injection Hr as <-.
  cbn [missing_required_skills matched_required_skills overall_score] in *.
  rewrite skill_match_score_returns in Hs. cbv zeta in Hs.
  injection Hs as _ <- <- _.
  assert (Hall : forall s0, In s0 (required_skills j) ->
                            skill_matched (skills c) s0 = true).
  { intros s0 Hin.
    destruct (skill_matched (skills c) s0) eqn:E; [reflexivity |].
    assert (Hin' : In s0 (filter (fun s => negb (skill_matched (skills c) s))
                                 (required_skills j))).
    { apply filter_In. split; [exact Hin | now rewrite E]. }
    rewrite Hm in Hin'. destruct Hin'. }
  split; [| split].
  - intros s0 Hin. apply skill_matched_iff, Hall, Hin.
  - apply filter_all, Hall.
  - exact Ho.
Qed.

Lemma hire_means_every_required_skill_matched_witness :
  matched_by
    (required_skills SAMPLE_JOB_REQUIREMENTS
     ++ preferred_skills SAMPLE_JOB_REQUIREMENTS)%list
    "Google Analytics".
Proof.
  refine (proj1 (hire_means_every_required_skill_matched
            (fun _ => "88.5")
            {| name := "A"; email := "a@b.c"; phone := None;
               skills := required_skills SAMPLE_JOB_REQUIREMENTS
                         ++ preferred_skills SAMPLE_JOB_REQUIREMENTS;
               experience_years := 9;
               education := ["Bachelor's Degree"];
               past_roles := ["Marketing Manager"];
               summary := "" |}
            SAMPLE_JOB_REQUIREMENTS SCORING_WEIGHTS _ "medium" _
            eq_refl eq_refl) "Google Analytics" _).
  right. now left.
Defined.




(** ** The interview questions *)

(** The five questions of the template, written out. *)
Lemma template_questions_explicit
    (c : CandidateData) (j : JobRequirements) (r : ScoringResults) :
  _generate_questions_template c j r
  = Ok [ "Can you walk us through your most successful " ++ lower (title j)
           ++ " project and the metrics you used to measure success?";
         if experience_years c >=? 5
         then "How have you evolved your approach to digital marketing strategy over the years, and what key lessons have you learned?"
         else "What is your understanding of modern digital marketing best practices, and how do you stay current with industry trends?";
         match missing_required_skills r with
         | [] => "Tell us about a time when you had to develop a skill outside your comfort zone. How did you approach it?"
         | skill :: _ =>
             "While we see you have strong "
               ++ match skills c with [] => "marketing" | strong :: _ => strong end
               ++ " skills, how would you approach learning " ++ skill
               ++ " in this role?"
         end;
         if str_in "lead" (lower (str_list (past_roles c)))
            || str_in "manager" (lower (str_list (past_roles c)))
         then "Describe your leadership style and how you approach managing and developing team members."
         else "Tell us about a time you successfully collaborated with people from different departments or with different expertise. What made it effective?";
         "What attracts you to this role and our company, and where do you see yourself in 3 years?" ].
Proof.
  unfold _generate_questions_template, list_append.
  destruct (experience_years c >=? 5);
    destruct (missing_required_skills r) as [|m ms];
    destruct (skills c) as [|s ss];
    destruct (str_in "lead" _ || str_in "manager" _);
    reflexivity.
Qed.

Lemma leadership_means_soft_90 (c : CandidateData) :
  str_in "lead" (lower (str_list (past_roles c)))
  || str_in "manager" (lower (str_list (past_roles c))) = true ->
  soft_skill_score c = 90.
Proof.
  intros H. unfold soft_skill_score.
  replace (existsb _ ["manager"; "lead"; "director"]) with true; [reflexivity |].
  symmetry. cbn [existsb]. apply orb_true_iff in H.
  destruct H as [H|H]; rewrite H; [apply orb_true_r | reflexivity].
Qed.

(** The template always returns five questions, also for a candidate with
    no skills and a result with nothing missing.  The first one carries the
    lower-cased job title; the third one names the first missing required
    skill when there is one; and the fourth one is the leadership question
    exactly when "lead" or "manager" occurs in the past roles, in which case
    the soft-skill estimate of [score_candidate] is 90. *)
Theorem template_questions_shape :
  forall (c : CandidateData) (j : JobRequirements) (r : ScoringResults),
  exists q1 q2 q3 q4 q5,
    _generate_questions_template c j r = Ok [q1; q2; q3; q4; q5]
    /\ str_in (lower (title j)) q1 = true
    /\ (forall m ms, missing_required_skills r = m :: ms -> str_in m q3 = true)
    /\ (q4 = "Describe your leadership style and how you approach managing and developing team members."
        <-> str_in "lead" (lower (str_list (past_roles c)))
            || str_in "manager" (lower (str_list (past_roles c))) = true)
    /\ (q4 = "Describe your leadership style and how you approach managing and developing team members."
        -> soft_skill_score c = 90).
Proof.
  intros c j r. do 5 eexists.
  split; [apply template_questions_explicit |].
  split; [apply str_in_middle |].
  split; [| split].
  - intros m ms ->. apply str_in_iff.
    exists ("While we see you have strong "
              ++ match skills c with [] => "marketing" | strong :: _ => strong end
              ++ " skills, how would you approach learning "),
      " in this role?".
    now rewrite !append_assoc.
  - destruct (str_in "lead" _ || str_in "manager" _);
      split; intros H; try reflexivity; discriminate H.
  - pose proof (leadership_means_soft_90 c) as Hs.
    destruct (str_in "lead" _ || str_in "manager" _);
      intros H; [now apply Hs | discriminate H].
Qed.

Lemma interview_questions_cases
    (env : Environment) (c : CandidateData) (j : JobRequirements)
    (r : ScoringResults) (api_fallback : bool) :
  exists questions,
    generate_interview_questions env c j r api_fallback = Ok questions
    /\ ((api_fallback = false
         /\ anthropic_available env = true /\ api_key_set env = true
         /\ claude_questions env c j r = ApiValue (Some questions))
        \/ (_generate_questions_template c j r = Ok questions
            /\ List.length questions = 5%nat)).
Proof.
  pose proof (template_questions_explicit c j r) as Ht.
  unfold generate_interview_questions, _generate_questions_with_claude.
  destruct api_fallback; cbn [negb];
    [| destruct (anthropic_available env);
       [destruct (api_key_set env);
        [destruct (claude_questions env c j r) as [[qs|]|] eqn:E |] |]];
    try (rewrite Ht; eexists; split; [reflexivity | right; split; reflexivity]).
  exists qs. split; [reflexivity | left; repeat split].
Qed.

(** [generate_interview_questions] never raises.  It returns the list from
    the service only when the fallback is off, the package and the key are
    there and the service answered with a list; in every other case (also
    when the service path raises) it returns the five template questions. *)
Theorem interview_questions_never_raise :
  forall (env : Environment) (c : CandidateData) (j : JobRequirements)
         (r : ScoringResults) (api_fallback : bool),
  exists questions,
    generate_interview_questions env c j r api_fallback = Ok questions
    /\ ((api_fallback = false
         /\ anthropic_available env = true /\ api_key_set env = true
         /\ claude_questions env c j r = ApiValue (Some questions))
        \/ (_generate_questions_template c j r = Ok questions
            /\ List.length questions = 5%nat)).
Proof. exact interview_questions_cases. Qed.

(** ** The demo extraction *)

Lemma split_char_nonempty (sep : ascii) (s : string) :
  exists piece pieces, split_char sep s = piece :: pieces.
Proof.
  induction s as [|c s [p [ps IH]]]; simpl; [now exists "", [] |].
  destruct (Ascii.eqb c sep); [now eexists _, _ |].
  rewrite IH. now eexists _, _.
Qed.

Lemma role_of_line_returns (keywords : list string) (line : string) :
  exists found,
    role_of_line keywords line = Ok found
    /\ forall role, found = Some role -> role <> "" /\ str_len role < 60.
Proof.
  induction keywords as [|k ks IH]; cbn [role_of_line].
  - exists None. split; [reflexivity | discriminate].
  - destruct (str_in k line && str_in "|" line); [| exact IH].
    destruct (split_char_nonempty "|"%char line) as [p [ps ->]].
    cbn [index0 bind].
    destruct (str_truthy (strip p)) eqn:Et; cbn [andb]; [| exact IH].
    destruct (Z.ltb_spec (str_len (strip p)) 60) as [Hl|Hl]; [| exact IH].
    exists (Some (strip p)). split; [reflexivity |].
    intros role [= <-]. split; [| exact Hl].
    intros E. rewrite E in Et. discriminate Et.
Qed.

Lemma collect_roles_returns (lines past_roles : list string) :
  Forall (fun role => role <> "" /\ str_len role < 60) past_roles ->
  exists roles,
    collect_roles lines past_roles = Ok roles
    /\ Forall (fun role => role <> "" /\ str_len role < 60) roles
    /\ (List.length roles <= List.length past_roles + List.length lines)%nat.
Proof.
  revert past_roles. induction lines as [|line lines IH]; intros past Hp;
    cbn [collect_roles].
  - exists past. split; [reflexivity |]. split; [exact Hp | lia].
  - destruct (role_of_line_returns role_keywords line) as [found [-> Hf]].
    cbn [bind]. destruct found as [role|].
    + destruct (IH (list_append past role)) as [roles [E [HF Hlen]]].
      { unfold list_append. apply Forall_app. split; [exact Hp |].
        constructor; [now apply Hf | constructor]. }
      exists roles. split; [exact E |]. split; [exact HF |].
      unfold list_append in Hlen. rewrite length_app in Hlen. simpl in *. lia.
    + destruct (IH past Hp) as [roles [E [HF Hlen]]].
      exists roles. split; [exact E |]. split; [exact HF |]. simpl. lia.
Qed.


Lemma demo_years_raises_iff
    (env : Environment) (resume_text : string) (e : exception) :
  demo_experience_years env resume_text = Raise e
  <-> e = ValueError
      /\ exists group,
           re_search env "(\d+)\s+years?" resume_text = Some group
           /\ py_int env group = None.
Proof.
  unfold demo_experience_years.
  destruct (re_search env "(\d+)\s+years?" resume_text) as [g|].
  - destruct (py_int env g) as [n|] eqn:E.
    + split; [discriminate |]. intros [_ [g' [[= <-] H]]]. congruence.
    + split.
      * intros [= <-]. split; [reflexivity |]. now exists g.
      * intros [-> _]. reflexivity.
  - split; [discriminate |]. intros [_ [g' [H _]]]. discriminate H.
Qed.

Lemma firstn_Forall {A : Type} (P : A -> Prop) (k : nat) (l : list A) :
  Forall P l -> Forall P (firstn k l).
Proof.
  intros H. revert k. induction H as [|x l Hx _ IH]; intros k.
  - rewrite firstn_nil. constructor.
  - destruct k; cbn [firstn]; constructor; [exact Hx | apply IH].
Qed.

(** What the demo extraction does, for every resume text: it raises with
    the parse of the years, and returns otherwise. *)
Lemma demo_extraction_cases (env : Environment) (resume_text : string) :
  match demo_experience_years env resume_text with
  | Raise e => extract_candidate_data_demo env resume_text = Raise e
  | Ok years =>
      exists c,
        extract_candidate_data_demo env resume_text = Ok c
        /\ experience_years c = years
        /\ education c = demo_education resume_text
        /\ skills c
           = filter (fun s => str_in (lower s) (lower resume_text))
                    skills_keywords
        /\ (List.length (past_roles c) <= 3)%nat
        /\ Forall (fun role => role <> "" /\ str_len role < 60) (past_roles c)
  end.
Proof.
  unfold extract_candidate_data_demo.
  destruct (demo_experience_years env resume_text) as [years|e];
    cbn [bind]; [| reflexivity].
  destruct (collect_roles_returns (split_char newline resume_text) [])
    as [roles [-> [HF _]]]; [constructor |].
  cbn [bind]. eexists. split; [reflexivity |].
  cbn [experience_years education skills past_roles].
  split; [reflexivity |]. split; [reflexivity |]. split; [reflexivity |].
  split; [rewrite length_firstn; lia | now apply firstn_Forall].
Qed.


(** ** The screening pipeline *)

(** The extraction step is the service's answer (with its defaults) when
    the package and the key are there and the service path completes, and
    the demo extraction otherwise. *)
Lemma extraction_cases (env : Environment) (resume_text : string) :
  (anthropic_available env = true /\ api_key_set env = true
   /\ exists extracted c,
        claude_extraction env resume_text = ApiValue extracted
        /\ extract_candidate_data_with_claude env resume_text = Ok c
        /\ education c = json_get (json_education extracted) [])
  \/ ((anthropic_available env = false \/ api_key_set env = false
       \/ claude_extraction env resume_text = ApiFailed)
      /\ extract_candidate_data_with_claude env resume_text
         = extract_candidate_data_demo env resume_text).
Proof.
  unfold extract_candidate_data_with_claude.
  destruct (anthropic_available env); cbn [negb];
    [| right; split; [now left | reflexivity]].
  destruct (api_key_set env); cbn [negb];
    [| right; split; [right; now left | reflexivity]].
  destruct (claude_extraction env resume_text) as [x|] eqn:E.
  - left. repeat split. exists x. eexists. repeat split.
  - right. split; [right; now right | reflexivity].
Qed.

(** The pipeline after the extraction: it raises with [score_candidate], and
    otherwise assembles the report from the scores, the questions and the
    recommendation. *)
Lemma screen_candidate_steps
    (env : Environment) (str_float : Q -> string) (resume_text : string)
    (j : JobRequirements) (w : ScoringCriteria) (c : CandidateData) :
  extract_candidate_data_with_claude env resume_text = Ok c ->
  match score_candidate c j w with
  | Raise e => screen_candidate env str_float resume_text j w = Raise e
  | Ok r =>
      exists questions recommendation confidence reasoning report,
        generate_interview_questions env c j r false = Ok questions
        /\ generate_recommendation str_float r c
           = Ok (recommendation, confidence, reasoning)
        /\ screen_candidate env str_float resume_text j w = Ok report
        /\ Report.recommendation report = recommendation
        /\ Report.confidence report = confidence
        /\ Report.overall_score report = overall_score r
        /\ Report.skills_score report = skills_score r
        /\ Report.matched_required_skills report = matched_required_skills r
        /\ Report.missing_required_skills report = missing_required_skills r
        /\ Report.interview_questions report = questions
        /\ Report.extracted_candidate_data report = c
        /\ Report.job_title report = title j
        /\ Report.screening_date report = now_isoformat env
  end.
Proof.
  intros Hc. unfold screen_candidate. rewrite Hc. cbn [bind].
  destruct (score_candidate c j w) as [r|e]; cbn [bind]; [| reflexivity].
  destruct (interview_questions_cases env c j r false) as [qs [Hq _]].
  destruct (recommendation_returns str_float r c) as [a [b [d [Hg _]]]].
  rewrite Hq, Hg. cbn [bind].
  exists qs, a, b, d. eexists.
  split; [reflexivity |]. split; [reflexivity |]. split; [reflexivity |].
  cbn. repeat split. destruct c; reflexivity.
Qed.

Lemma screen_candidate_extraction_raises
    (env : Environment) (str_float : Q -> string) (resume_text : string)
    (j : JobRequirements) (w : ScoringCriteria) (e : exception) :
  extract_candidate_data_with_claude env resume_text = Raise e ->
  screen_candidate env str_float resume_text j w = Raise e.
Proof. intros H. unfold screen_candidate. rewrite H. reflexivity. Qed.



(** Two ways in which [screen_candidate] raises.  When the service supplies
    the candidate data, that data has no education entry (the key absent or
    its list empty) and the job asks for "High School or Certificate", the
    education scorer's [IndexError] leaves the pipeline.  When the candidate
    data comes from the demo extraction and [int] raises on the digits
    matched before "years", that [ValueError] leaves the pipeline. *)
Theorem screen_candidate_raises_when :
  (forall (env : Environment) (str_float : Q -> string) (resume_text : string)
          (j : JobRequirements) (w : ScoringCriteria) (extracted : ExtractedJson),
      anthropic_available env = true -> api_key_set env = true ->
      claude_extraction env resume_text = ApiValue extracted ->
      json_get (json_education extracted) [] = [] ->
      minimum_education j = "High School or Certificate" ->
      screen_candidate env str_float resume_text j w = Raise IndexError)
  /\ (forall (env : Environment) (str_float : Q -> string) (resume_text : string)
            (j : JobRequirements) (w : ScoringCriteria) (group : string),
        anthropic_available env = false \/ api_key_set env = false
        \/ claude_extraction env resume_text = ApiFailed ->
        re_search env "(\d+)\s+years?" resume_text = Some group ->
        py_int env group = None ->
        screen_candidate env str_float resume_text j w = Raise ValueError).
Proof.
  split.
  - intros env f text j w x Ha Hk Hx He Hj.
    destruct (extraction_cases env text)
      as [[_ [_ [x' [c [Hx' [Hc Hedu]]]]]]|[[H|[H|H]] _]]; try congruence.
    rewrite Hx in Hx'. injection Hx' as <-.
    pose proof (screen_candidate_steps env f text j w c Hc) as Hs.
    assert (Hr : score_candidate c j w = Raise IndexError).
    { apply score_candidate_raises_iff. rewrite Hedu. now repeat split. }
    rewrite Hr in Hs. exact Hs.
  - intros env f text j w g Hmode Hg Hn.
    apply screen_candidate_extraction_raises.
    destruct (extraction_cases env text) as [[Ha [Hk [x [c [Hx _]]]]]|[_ Hd]].
    { exfalso. destruct Hmode as [H|[H|H]]; congruence. }
    rewrite Hd.
    pose proof (demo_extraction_cases env text) as Hc.
    assert (Hy : demo_experience_years env text = Raise ValueError).
    { apply demo_years_raises_iff. split; [reflexivity |]. now exists g. }
    rewrite Hy in Hc. exact Hc.
Qed.

Lemma screen_candidate_raises_when_witness :
  screen_candidate
    {| anthropic_available := true; api_key_set := true;
       claude_extraction :=
         fun _ => ApiValue {| json_name := Some "Jane Doe";
                              json_email := Some "jane.doe@email.com";
                              json_phone := None;
                              json_skills := Some ["Customer Service"];
                              json_experience_years := Some 1;
                              json_education := None;
                              json_past_roles := Some [];
                              json_summary := Some "" |};
       claude_questions := fun _ _ _ => ApiFailed;
       re_search := fun _ _ => None;
       py_int := fun _ => None;
       now_isoformat := "2024-01-01T00:00:00" |}
    (fun _ => "0.0") "Jane Doe" entry_level_job SCORING_WEIGHTS
  = Raise IndexError.
Proof.
  eapply (proj1 screen_candidate_raises_when); reflexivity.
Defined.

(** Every report that [screen_candidate] returns is coherent with the run
    that produced it.  It shows the candidate data of the extraction step
    and the scores of [score_candidate] on that data; the recommendation is
    "hire" exactly when the reported overall score is at least 80 and no
    required skill is reported missing, and "pass" exactly when the score is
    below 60; the reported matched and missing required skills rearrange the
    job's required list; and the interview questions are what
    [generate_interview_questions] returns for this candidate and result:
    the service's list for them, or the five questions of the template for
    them. *)
Theorem screening_report_coherent :
  forall (env : Environment) (str_float : Q -> string) (resume_text : string)
         (j : JobRequirements) (w : ScoringCriteria)
         (report : Report.ScreeningReport),
    screen_candidate env str_float resume_text j w = Ok report ->
    exists (c : CandidateData) (r : ScoringResults),
      extract_candidate_data_with_claude env resume_text = Ok c
      /\ score_candidate c j w = Ok r
      /\ Report.extracted_candidate_data report = c
      /\ Report.overall_score report = overall_score r
      /\ Report.matched_required_skills report = matched_required_skills r
      /\ Report.missing_required_skills report = missing_required_skills r
      /\ (Report.recommendation report = "hire"
          <-> (80 <= Report.overall_score report)%Q
              /\ Report.missing_required_skills report = [])
      /\ (Report.recommendation report = "pass"
          <-> (Report.overall_score report < 60)%Q)
      /\ In (Report.recommendation report) ["hire"; "review"; "pass"]
      /\ Permutation (Report.matched_required_skills report
                      ++ Report.missing_required_skills report)
                     (required_skills j)
      /\ generate_interview_questions env c j r false
         = Ok (Report.interview_questions report)
      /\ ((anthropic_available env = true /\ api_key_set env = true
           /\ claude_questions env c j r
              = ApiValue (Some (Report.interview_questions report)))
          \/ (_generate_questions_template c j r
              = Ok (Report.interview_questions report)
              /\ List.length (Report.interview_questions report) = 5%nat)).
Proof.
  intros env f text j w report H.
  destruct (extract_candidate_data_with_claude env text) as [c|e0] eqn:Hc.
  2:{ rewrite (screen_candidate_extraction_raises env f text j w e0 Hc) in H.
      discriminate H. }
  pose proof (screen_candidate_steps env f text j w c Hc) as Hs.
  destruct (score_candidate c j w) as [r|e'] eqn:Er; [| congruence].
  destruct Hs as [qs [a [b [d [report' [Hq [Hg [Hr Hf]]]]]]]].
  rewrite Hr in H. injection H as <-.
  destruct Hf as (Hrec & _ & Ho & _ & Hmr & Hms & Hqs & Hx & _).
  exists c, r. rewrite Hrec, Ho, Hmr, Hms, Hqs, Hx.
  destruct (recommendation_inv f r c a b d Hg) as [Hhire [Hpass _]].
  split; [reflexivity |]. split; [exact Er |].
  do 4 (split; [reflexivity |]).
  split; [exact Hhire |]. split; [exact Hpass |]. split; [| split; [| split]].
  - destruct (recommendation_returns f r c) as [a' [b' [d' [Hg' [Hin _]]]]].
    rewrite Hg in Hg'. injection Hg' as -> _ _. exact Hin.
  - destruct (score_candidate_inv c j w r Er)
      as [s [mr [ms [mp [x [xa [dd [da [Hsk [Hxx Hd]]]]]]]]]].
    rewrite (score_candidate_returns c j w _ _ _ _ _ _ _ _ Hsk Hxx Hd) in Er.
    injection Er as <-. cbn [matched_required_skills missing_required_skills].
    rewrite skill_match_score_returns in Hsk. cbv zeta in Hsk.
    injection Hsk as _ <- <- _. apply filter_split_permutation.
  - exact Hq.
  - destruct (interview_questions_cases env c j r false) as [qs' [Hq' Hcases]].
    rewrite Hq in Hq'. injection Hq' as <-.
    destruct Hcases as [[_ [Ha [Hk Hcl]]]|[Ht Hlen]]; [left | right]; auto.
Qed.

Lemma screening_report_coherent_witness :
  exists report,
    screen_candidate
      {| anthropic_available := false; api_key_set := false;
         claude_extraction := fun _ => ApiFailed;
         claude_questions := fun _ _ _ => ApiFailed;
         re_search := fun _ _ => None;
         py_int := fun _ => Some 0;
         now_isoformat := "2024-01-01T00:00:00" |}
      (fun _ => "18.0") "Associate of Arts | SEO" SAMPLE_JOB_REQUIREMENTS
      SCORING_WEIGHTS
    = Ok report
    /\ List.length (Report.interview_questions report) = 5%nat
    /\ (Report.recommendation report = "pass"
        <-> (Report.overall_score report < 60)%Q).
Proof.
  destruct (screen_candidate _ _ _ _ _) as [report|e] eqn:H;
    [| vm_compute in H; discriminate H].
  exists report. split; [reflexivity |].
  destruct (screening_report_coherent _ _ _ _ _ _ H)
    as (c & r & _ & _ & _ & _ & _ & _ & _ & Hpass & _ & _ & _ & Hq).
  split; [| exact Hpass].
  destruct Hq as [[Ha _]|[_ Hlen]]; [discriminate Ha | exact Hlen].
Defined.

(** ** The weighted score as the code computes it *)

Lemma f64_exact_nonneg (m : positive) (e : Z) : (0 <= F64.exact m e)%Q.
Proof.
  unfold F64.exact. destruct (e <? 0).
  - unfold Qle. simpl. lia.
  - change 0%Q with (inject_Z 0). rewrite <- Zle_Qle.
    apply Z.mul_nonneg_nonneg; [lia | apply Z.pow_nonneg; lia].
Qed.

(** [F64.round1] on a double of moderate size: the quotient of a whole
    number of tenths by ten, the tenths being at most one half away from
    ten times the exact value. *)
Lemma f64_round1_tenths (x : float) (negative : bool) (m : positive) (e : Z) :
  Prim2SF x = S754_finite negative m e ->
  PrimFloat.ltb (PrimFloat.abs x) 562949953421312 = true ->
  exists tenths : Z,
    0 <= tenths
    /\ (Qabs (inject_Z tenths - F64.exact m e * 10) <= 1 # 2)%Q
    /\ F64.round1 x
       = if negative
         then PrimFloat.opp (PrimFloat.div (F64.of_int tenths) 10)
         else PrimFloat.div (F64.of_int tenths) 10.
Proof.
  intros Hx Hlt. exists (round_half_even (F64.exact m e * 10)).
  split; [| split].
  - rewrite <- (round_half_even_Z 0). apply round_half_even_mono.
    change (inject_Z 0) with 0%Q. pose proof (f64_exact_nonneg m e). lra.
  - apply round_half_even_close.
  - unfold F64.round1. rewrite Hx, Hlt. reflexivity.
Qed.

Lemma f64_score_candidate_returns
    (c : CandidateData) (j : JobRequirements) (w : F64.ScoringCriteria)
    (skill_score : F64.number) (matched_req missing_req matched_pref : list string)
    (exp_score : Z) (exp_assessment : string)
    (edu_score : Z) (edu_assessment : string) :
  F64.calculate_skill_match_score
    (skills c) (required_skills j) (preferred_skills j) (nice_to_have_skills j)
  = Ok (skill_score, matched_req, missing_req, matched_pref) ->
  calculate_experience_score (experience_years c) (minimum_experience_years j)
  = (exp_score, exp_assessment) ->
  calculate_education_score (education c) (minimum_education j)
  = Ok (edu_score, edu_assessment) ->
  F64.score_candidate c j w
  = Ok {| F64.overall_score :=
            F64.round (F64.weighted_overall skill_score exp_score edu_score
                                            (soft_skill_score c) w);
          F64.skills_score := F64.round skill_score;
          F64.experience_score := F64.round (F64.Int exp_score);
          F64.education_score := F64.round (F64.Int edu_score);
          F64.matched_required_skills := matched_req;
          F64.missing_required_skills := missing_req;
          F64.matched_preferred_skills := matched_pref;
          F64.experience_assessment := exp_assessment;
          F64.education_assessment := edu_assessment |}.
Proof.
  intros Hs He Hd. unfold F64.score_candidate.
  rewrite Hs, He, Hd. reflexivity.
Qed.

(** C3: whenever the scorers return, [score_candidate] returns a dict whose
    overall score is
    [skill * required_w + skill * preferred_w * 0.5 + exp * experience_w
     + edu * education_w + soft * soft_w],
    computed left to right in binary64 (the one skill score entering twice,
    the second time at half strength against the preferred-skills weight),
    and then rounded to one decimal place: for a sum of moderate size, the
    double nearest to a whole number of tenths that is at most one half of a
    tenth away from the sum.  For the job [DIGITAL_MARKETING_MANAGER], the
    default weights and a candidate with all four required skills, one
    preferred skill, four years, no recognised degree and a manager title,
    the sum is just below 59.95 and the overall score is 59.9. *)
Theorem C3_overall_score_formula :
  (forall (c : CandidateData) (j : JobRequirements) (w : F64.ScoringCriteria)
          (skill_score : F64.number)
          (matched_req missing_req matched_pref : list string)
          (exp_score : Z) (exp_assessment : string)
          (edu_score : Z) (edu_assessment : string),
      F64.calculate_skill_match_score
        (skills c) (required_skills j) (preferred_skills j)
        (nice_to_have_skills j)
      = Ok (skill_score, matched_req, missing_req, matched_pref) ->
      calculate_experience_score
        (experience_years c) (minimum_experience_years j)
      = (exp_score, exp_assessment) ->
      calculate_education_score (education c) (minimum_education j)
      = Ok (edu_score, edu_assessment) ->
      exists (r : F64.ScoringResults) (sum : float),
        F64.score_candidate c j w = Ok r
        /\ F64.add
             (F64.add
                (F64.add
                   (F64.add
                      (F64.mul skill_score
                               (F64.Float (F64.required_skills_weight w)))
                      (F64.mul
                         (F64.mul skill_score
                                  (F64.Float (F64.preferred_skills_weight w)))
                         (F64.Float 0.5)))
                   (F64.mul (F64.Int exp_score)
                            (F64.Float (F64.experience_weight w))))
                (F64.mul (F64.Int edu_score)
                         (F64.Float (F64.education_weight w))))
             (F64.mul (F64.Int (soft_skill_score c))
                      (F64.Float (F64.soft_skills_weight w)))
           = F64.Float sum
        /\ F64.overall_score r = F64.Float (F64.round1 sum))
  /\ (forall (x : float) (negative : bool) (m : positive) (e : Z),
        Prim2SF x = S754_finite negative m e ->
        PrimFloat.ltb (PrimFloat.abs x) 562949953421312 = true ->
        exists tenths : Z,
          0 <= tenths
          /\ (Qabs (inject_Z tenths - F64.exact m e * 10) <= 1 # 2)%Q
          /\ F64.round1 x
             = if negative
               then PrimFloat.opp (PrimFloat.div (F64.of_int tenths) 10)
               else PrimFloat.div (F64.of_int tenths) 10)
  /\ (exists (r : F64.ScoringResults),
        F64.score_candidate
          marketing_candidate DIGITAL_MARKETING_MANAGER F64.SCORING_WEIGHTS
        = Ok r
        /\ F64.skills_score r = F64.Float 76
        /\ F64.weighted_overall (F64.Float 76) 65 5 90 F64.SCORING_WEIGHTS
           = F64.Float (PrimFloat.next_down (PrimFloat.div 5995 100))
        /\ F64.overall_score r = F64.Float (PrimFloat.div 599 10)).
Proof.
  split; [| split].
  - intros c j w s mr ms mp x xa d da Hs Hx Hd.
    rewrite (f64_score_candidate_returns c j w _ _ _ _ _ _ _ _ Hs Hx Hd).
    unfold F64.weighted_overall.
    match goal with
    | |- context [F64.add ?partial
                    (F64.mul (F64.Int (soft_skill_score c)) ?weight)] =>
        destruct partial
    end;
      eexists; eexists; (split; [reflexivity |]); split; reflexivity.
  - exact f64_round1_tenths.
  - eexists. split; [vm_compute; reflexivity |].
    repeat split; vm_compute; reflexivity.
Qed.

Lemma C3_overall_score_formula_witness :
  exists r : F64.ScoringResults,
    F64.score_candidate
      sample_candidate SAMPLE_JOB_REQUIREMENTS F64.SCORING_WEIGHTS
    = Ok r
    /\ F64.overall_score r = F64.Float (PrimFloat.div 601 10).
Proof.
  edestruct (proj1 C3_overall_score_formula
               sample_candidate SAMPLE_JOB_REQUIREMENTS F64.SCORING_WEIGHTS)
    as [r [sum [Hr [Hsum Ho]]]]; [reflexivity | reflexivity | reflexivity |].
  exists r. split; [exact Hr |]. rewrite Ho.
  vm_compute in Hsum. injection Hsum as <-. vm_compute. reflexivity.
Defined.

(** On the same input the exact reading of the numbers gives the tie 59.95,
    which rounds to the even tenth 60.0. *)
Remark exact_sum_is_a_tie :
  exists r : ScoringResults,
    score_candidate marketing_candidate DIGITAL_MARKETING_MANAGER SCORING_WEIGHTS
    = Ok r
    /\ (overall_score r == 60)%Q.
Proof. eexists. split; reflexivity. Qed.
